(** * silverberg: the marshalling tests against a live database

    A shallow embedding of [silverberg/test/test_against_db.py]: the table of
    CQL3 types with the value each test inserts and the value it expects back,
    the statements that create the two tables, the helpers [execute_insert] and
    [execute_select], the test methods generated from the table, and the
    module-level set-up gated by [CASSANDRA_ENDPOINT].  The client the tests
    drive, [silverberg.client], is not among the sources: the tests are run
    against any client, and where a property is about the client itself it is
    stated on a model of it taken from the specification.

    The module is Python 2: [/] on integers is floor division, a plain string
    literal is a byte string and a [u'...'] literal is a unicode string. *)

From Stdlib Require Import ZArith String Ascii List Bool Lia.
From Stdlib Require Import PrimFloat FloatOps SpecFloat DecimalString.
From Stdlib Require Import DecimalZ DecimalPos.
From stdpp Require Import gmap strings list fin_maps.

Local Open Scope string_scope.
Local Open Scope Z_scope.

(** ** Python values *)

(** The exceptions the embedded code can raise; [DatabaseError] stands for
    whatever the [cql] driver raises when the database refuses. *)
Inductive exn : Type :=
| TypeError
| ValueError
| UnicodeEncodeError
| DatabaseError.

(** A Python expression either returns a value or raises. *)
Inductive result (A : Type) : Type :=
| Returns (a : A)
| Raises (e : exn).
Arguments Returns {A} a.
Arguments Raises {A} e.

Definition bind {A B : Type} (r : result A) (k : A -> result B) : result B :=
  match r with
  | Returns a => k a
  | Raises e => Raises e
  end.

(** [datetime.datetime], naive (no time zone), with the fields the module
    reads. *)
Record datetime : Type := mk_datetime {
  year : Z;
  month : Z;
  day : Z;
  hour : Z;
  minute : Z;
  second : Z;
  microsecond : Z
}.

Definition is_leap (y : Z) : bool :=
  (y mod 4 =? 0) && (negb (y mod 100 =? 0) || (y mod 400 =? 0)).

Definition days_in_month (y m : Z) : Z :=
  if m =? 2 then (if is_leap y then 29 else 28)
  else if (m =? 4) || (m =? 6) || (m =? 9) || (m =? 11) then 30
  else 31.

(** The ranges the [datetime] constructor enforces. *)
Definition datetime_ok (d : datetime) : bool :=
  (1 <=? year d) && (year d <=? 9999)
  && (1 <=? month d) && (month d <=? 12)
  && (1 <=? day d) && (day d <=? days_in_month (year d) (month d))
  && (0 <=? hour d) && (hour d <=? 23)
  && (0 <=? minute d) && (minute d <=? 59)
  && (0 <=? second d) && (second d <=? 59)
  && (0 <=? microsecond d) && (microsecond d <=? 999999).

(** [datetime(year, month, day, hour, minute, second, microsecond)]: raises
    [ValueError] when a field is out of range. *)
Definition datetime_new (y mo d h mi s us : Z) : result datetime :=
  let dt := mk_datetime y mo d h mi s us in
  if datetime_ok dt then Returns dt else Raises ValueError.

(** What a collection of the type table holds: integers, booleans and byte
    strings. *)
Inductive elem : Type :=
| EInt (z : Z)
| EBool (b : bool)
| EStr (s : string).

(** The values that travel through the harness.  A [set] is listed in its
    iteration order, a [dict] in the order of its items; a unicode string is
    the list of its code points; a UUID is its 128-bit integer. *)
Inductive pyvalue : Type :=
| VNone
| VInt (z : Z)
| VBool (b : bool)
| VFloat (f : float)
| VStr (s : string)
| VUnicode (u : list Z)
| VDatetime (d : datetime)
| VUUID (u : Z)
| VList (l : list elem)
| VSet (l : list elem)
| VDict (l : list (elem * elem)).

(** *** Equality ([==]) *)

Definition Z_of_bool (b : bool) : Z := if b then 1 else 0.

(** A float equals an integer when it denotes that integer exactly. *)
Definition float_eq_Z (f : float) (z : Z) : bool :=
  match Prim2SF f with
  | S754_zero _ => z =? 0
  | S754_finite s m e =>
      let v := if s then Z.neg m else Z.pos m in
      if 0 <=? e then z =? v * 2 ^ e else z * 2 ^ (- e) =? v
  | _ => false
  end.

Definition elem_eqb (a b : elem) : bool :=
  match a, b with
  | EStr s, EStr t => String.eqb s t
  | EStr _, _ | _, EStr _ => false
  | EInt x, EInt y => x =? y
  | EInt x, EBool c => x =? Z_of_bool c
  | EBool c, EInt y => Z_of_bool c =? y
  | EBool c, EBool d => Bool.eqb c d
  end.

Fixpoint list_eqb {A : Type} (eqb : A -> A -> bool) (l k : list A) : bool :=
  match l, k with
  | [], [] => true
  | a :: l', b :: k' => eqb a b && list_eqb eqb l' k'
  | _, _ => false
  end.

Definition subset_eqb {A : Type} (eqb : A -> A -> bool) (l k : list A) : bool :=
  forallb (fun a => existsb (eqb a) k) l.

Definition item_eqb (p q : elem * elem) : bool :=
  elem_eqb (fst p) (fst q) && elem_eqb (snd p) (snd q).

Definition datetime_eqb (a b : datetime) : bool :=
  (year a =? year b) && (month a =? month b) && (day a =? day b)
  && (hour a =? hour b) && (minute a =? minute b) && (second a =? second b)
  && (microsecond a =? microsecond b).

Definition code_of_ascii (c : ascii) : Z := Z.of_nat (nat_of_ascii c).

Definition codes_of_string (s : string) : list Z :=
  map code_of_ascii (list_ascii_of_string s).

(** A byte string equals a unicode string when it is ASCII and has the same
    characters (Python 2 decodes it as ASCII for the comparison). *)
Definition str_unicode_eqb (s : string) (u : list Z) : bool :=
  forallb (fun c => c <? 128) (codes_of_string s)
  && list_eqb Z.eqb (codes_of_string s) u.

Definition py_eqb (v w : pyvalue) : bool :=
  match v, w with
  | VNone, VNone => true
  | VInt x, VInt y => x =? y
  | VInt x, VBool c => x =? Z_of_bool c
  | VBool c, VInt y => Z_of_bool c =? y
  | VBool c, VBool d => Bool.eqb c d
  | VFloat f, VFloat g => PrimFloat.eqb f g
  | VFloat f, VInt y => float_eq_Z f y
  | VInt x, VFloat g => float_eq_Z g x
  | VFloat f, VBool d => float_eq_Z f (Z_of_bool d)
  | VBool c, VFloat g => float_eq_Z g (Z_of_bool c)
  | VStr s, VStr t => String.eqb s t
  | VUnicode u, VUnicode t => list_eqb Z.eqb u t
  | VStr s, VUnicode t => str_unicode_eqb s t
  | VUnicode u, VStr t => str_unicode_eqb t u
  | VDatetime a, VDatetime b => datetime_eqb a b
  | VUUID a, VUUID b => a =? b
  | VList l, VList k => list_eqb elem_eqb l k
  | VSet l, VSet k => subset_eqb elem_eqb l k && subset_eqb elem_eqb k l
  | VDict l, VDict k => subset_eqb item_eqb l k && subset_eqb item_eqb k l
  | _, _ => false
  end.

(** *** [str] and iteration *)

(** [str(z)] of an integer: its decimal digits, [-] in front when negative. *)
Definition str_of_Z (z : Z) : string := NilZero.string_of_int (Z.to_int z).

Definition str_of_elem (e : elem) : string :=
  match e with
  | EInt z => str_of_Z z
  | EBool true => "True"
  | EBool false => "False"
  | EStr s => s
  end.

Definition string_of_ascii (c : ascii) : string := String c EmptyString.

(** [[str(x) for x in value]]: a list, a set and a byte string are iterated
    over their elements, a dict over its keys; a unicode string gives its
    characters, each of which [str] can convert only when it is ASCII; the
    other values are not iterable. *)
Definition str_items (value : pyvalue) : result (list string) :=
  match value with
  | VList l | VSet l => Returns (map str_of_elem l)
  | VDict l => Returns (map (fun kv => str_of_elem (fst kv)) l)
  | VStr s => Returns (map string_of_ascii (list_ascii_of_string s))
  | VUnicode u =>
      if forallb (fun c => (0 <=? c) && (c <? 128)) u
      then Returns (map (fun c => string_of_ascii (ascii_of_nat (Z.to_nat c))) u)
      else Raises UnicodeEncodeError
  | VNone | VInt _ | VBool _ | VFloat _ | VDatetime _ | VUUID _ => Raises TypeError
  end.

(** [sep.join(items)]. *)
Fixpoint join (sep : string) (items : list string) : string :=
  match items with
  | [] => ""
  | [s] => s
  | s :: rest => s +:+ sep +:+ join sep rest
  end.

(** ** The table of CQL3 types *)

(** One entry of [cql3_types].  The key ['supported'] is present only in the
    entries of [decimal] and [inet]. *)
Record entry : Type := mk_entry {
  description : string;
  insert : pyvalue;
  expected : pyvalue;
  supported : option bool
}.

(** [data.get('supported', True)]. *)
Definition get_supported (data : entry) : bool :=
  match supported data with
  | Some b => b
  | None => true
  end.

(** [_now_expected]: [_now] with the microseconds cut down to whole
    milliseconds, "because cassandra can only handle millsecond
    granularity". *)
Definition _now_expected (_now : datetime) : result datetime :=
  datetime_new (year _now) (month _now) (day _now) (hour _now)
               (minute _now) (second _now)
               (microsecond _now / 1000 * 1000).

(** The code points of [u'(づ｡◕‿‿◕｡)づ']. *)
Definition kaomoji : list Z :=
  [40; 12389; 65377; 9685; 8255; 8255; 9685; 65377; 41; 12389].

#[local] Set Warnings "-inexact-float".

(** [cql3_types], in the order of the source text.  [_now], [_now_expected]
    and [_uuid1] are the module's globals of that name: the clock's reading
    at import, its truncation, and a fresh version-1 UUID.  A Python 2 dict
    is iterated in an order of its own; nothing below depends on the order
    of this list. *)
Definition cql3_types (_now _now_expected : datetime) (_uuid1 : Z)
  : list (string * entry) :=
  [ ("ascii",
     mk_entry "US-ASCII character string"
              (VStr "abcdefg") (VStr "abcdefg") None);
    ("bigint",
     mk_entry "64-bit signed long"
              (VInt 9223372036854775805) (VInt 9223372036854775805) None);
    ("blob",
     mk_entry "Arbitrary bytes (no validation), expressed as hexadecimal"
              (VStr "6d796b657931") (VStr "mykey1") None);
    ("boolean",
     mk_entry "true or false" (VBool true) (VBool true) None);
    ("counter",
     mk_entry "Distributed counter value (64-bit long)"
              (VInt 1) (VInt 1) None);
    ("decimal",
     mk_entry "Variable-precision decimal"
              (VFloat 1.513623) (VFloat 1.513623) (Some false));
    ("double",
     mk_entry "64-bit IEEE-754 floating point"
              (VFloat 1.513623614) (VFloat 1.513623614) None);
    ("float",
     mk_entry "32-bit IEEE-754 floating point"
              (VFloat 136.36460918) (VFloat 136.36460918) None);
    ("inet",
     mk_entry "IP address string in IPv4 or IPv6 format*"
              (VStr "152.12.14.1") (VStr "152.12.14.1") (Some false));
    ("int",
     mk_entry "32-bit signed integer" (VInt 5) (VInt 5) None);
    ("list<int>",
     mk_entry "collection of one or more ordered elements"
              (VList [EInt 1; EInt 1; EInt 2; EInt 2; EInt 3; EInt 3; EInt 4; EInt 4])
              (VList [EInt 1; EInt 1; EInt 2; EInt 2; EInt 3; EInt 3; EInt 4; EInt 4])
              None);
    ("map<int, text>",
     mk_entry "A JSON-style array of literals: { literal : literal, ... }"
              (VDict [(EInt 1, EStr "whats"); (EInt 2, EStr "up")])
              (VDict [(EInt 1, EStr "whats"); (EInt 2, EStr "up")])
              None);
    ("set<int>",
     mk_entry "A collection of one or more elements"
              (VSet [EInt 1; EInt 2; EInt 3; EInt 4])
              (VSet [EInt 1; EInt 2; EInt 3; EInt 4])
              None);
    ("text",
     mk_entry "UTF-8 encoded string" (VUnicode kaomoji) (VUnicode kaomoji) None);
    ("timestamp",
     mk_entry "Date plus time, encoded as 8 bytes since epoch"
              (VDatetime _now) (VDatetime _now_expected) None);
    ("uuid",
     mk_entry "A UUID in standard UUID format"
              (VUUID _uuid1) (VUUID _uuid1) None);
    ("timeuuid",
     mk_entry "Type 1 UUID only (CQL 3)" (VUUID _uuid1) (VUUID _uuid1) None);
    ("varchar",
     mk_entry "UTF-8 encoded string" (VUnicode kaomoji) (VUnicode kaomoji) None);
    ("varint",
     mk_entry "Arbitrary-precision integer"
              (VInt 15984362469) (VInt 15984362469) None) ].

(** [cql_type.split('<', 1)[0]]: the type's name up to its first [<]. *)
Fixpoint short_name (cql_type : string) : string :=
  match cql_type with
  | EmptyString => EmptyString
  | String c rest =>
      if Ascii.eqb c "<" then EmptyString else String c (short_name rest)
  end.

(** ["{0}_type".format(shortname)]. *)
Definition column_of (cql_type : string) : string :=
  short_name cql_type +:+ "_type".

(** ** The two tables *)

(** The column definitions of the table [test]: the primary key, then
    ['{1}_type {0}'.format(k, short_name(k))] for every key [k] of the type
    table other than ["counter"]. *)
Definition test_column_defs (keys : list string) : list string :=
  "test_key timestamp PRIMARY KEY"
  :: map (fun k => column_of k +:+ " " +:+ k)
         (List.filter (fun k => negb (String.eqb k "counter")) keys).

Definition create_table_test (keys : list string) : string :=
  "CREATE TABLE test (" +:+ join ", " (test_column_defs keys) +:+ ");".

(** "counters are special and cannot be used in column families that contain
    any other non-primary-key values.  Counters also can't be primary keys" *)
Definition create_table_test_counter : string :=
  "CREATE TABLE test_counter (test_key int PRIMARY KEY, counter_type counter);".

(** ** Queries *)

(** Modelled from the spec: [silverberg.client.ConsistencyLevel] is not under
    src/; the spec gives "an enumeration including at least ONE, QUORUM,
    ALL". *)
Inductive ConsistencyLevel : Type :=
| ONE
| QUORUM
| ALL.

(** The arguments of one call [client.execute(query, params,
    consistency=...)]. *)
Record request : Type := mk_request {
  query : string;
  params : gmap string pyvalue;
  consistency : ConsistencyLevel
}.

(** [execute_insert], up to its call of [client.execute]: the request it
    hands to the client, or the exception raised while the query is built. *)
Definition execute_insert (table_name column_name : string)
    (value primary_key : pyvalue) : result request :=
  let params : gmap string pyvalue :=
    <["val" := value]> (<["key" := primary_key]> ∅) in
  if String.eqb column_name "counter_type" then
    Returns (mk_request
      ("UPDATE " +:+ table_name +:+ " SET " +:+ column_name +:+ " = "
       +:+ column_name +:+ " + :val WHERE test_key = :key;")
      params ALL)
  else if String.eqb column_name "set_type" then
    bind (str_items value) (fun items =>
    Returns (mk_request
      ("INSERT INTO " +:+ table_name +:+ " (test_key, " +:+ column_name
       +:+ ") values (:key, " +:+ ("{" +:+ join ", " items +:+ "}") +:+ ");")
      (delete "val" params) ALL))
  else
    Returns (mk_request
      ("INSERT INTO " +:+ table_name +:+ " (test_key, " +:+ column_name
       +:+ ") values (:key, :val);")
      params ALL).

(** [execute_select], up to its call of [client.execute]. *)
Definition execute_select (table_name column_name : string)
    (primary_key : pyvalue) : request :=
  mk_request
    ("SELECT " +:+ column_name +:+ " FROM " +:+ table_name
     +:+ " WHERE test_key=:key;")
    (<["key" := primary_key]> ∅) ALL.

(** ** Test methods *)

Abbreviation row := (gmap string pyvalue).
Abbreviation resultset := (list (gmap string pyvalue)).

(** [a == b] on two rows (dicts with string keys): the same keys, with equal
    values. *)
Definition row_eqb (a b : row) : bool :=
  bool_decide (dom a = dom b)
  && forallb (fun kv => match b !! fst kv with
                        | Some w => py_eqb (snd kv) w
                        | None => false
                        end) (map_to_list a).

(** A test method of [UnmarshallingTestCase]: what its body closes over.
    [test_none] and the generated methods have the same body. *)
Record test_method : Type := mk_test_method {
  tm_table : string;
  tm_column : string;
  tm_insert : pyvalue;
  tm_expected : pyvalue
}.

(** The right-hand side of the method's [assertEqual]:
    [[{column_name: expected}]]. *)
Definition expected_result (f : test_method) : resultset :=
  [ {[ tm_column f := tm_expected f ]} ].

(** [check_result]: [assertEqual(result, [{column_name: expected}])]. *)
Definition check_result (f : test_method) (result : resultset) : bool :=
  list_eqb row_eqb result (expected_result f).

Definition test_none : test_method :=
  mk_test_method "test" "ascii_type" VNone VNone.

(** [make_test_method]: the name under which the method is set on the class,
    and the method. *)
Definition make_test_method (cql_type : string) (data : entry)
  : string * test_method :=
  let shortname := short_name cql_type in
  let column_name := shortname +:+ "_type" in
  let test_case_name := "test_" +:+ shortname in
  let table_name :=
    if String.eqb cql_type "counter" then "test_counter" else "test" in
  (test_case_name,
   mk_test_method table_name column_name (insert data) (expected data)).

(** The loop that adds the test methods: entries whose ['supported'] is false
    are passed over. *)
Definition generated_tests (types : list (string * entry))
  : list (string * test_method) :=
  map (fun kd => make_test_method (fst kd) (snd kd))
      (List.filter (fun kd => get_supported (snd kd)) types).

(** [setattr(UnmarshallingTestCase, name, f)] for each of them, in turn. *)
Definition add_test_methods (types : list (string * entry))
    (cls : gmap string test_method) : gmap string test_method :=
  fold_left (fun c nf => <[fst nf := snd nf]> c) (generated_tests types) cls.

(** ** Running a test against a client *)

(** Modelled from the spec: the failures of [silverberg.client], which is not
    under src/, as the spec's error taxonomy lists them. *)
Inductive client_error : Type :=
| EncodeError
| DecodeError
| ConnectionClosed
| TransportTimeout
| TransportReset
| ProtocolError.

(** What the Deferred returned by [client.execute] fires with; [Pending]
    when it does not fire. *)
Inductive reply : Type :=
| Success (rows : resultset)
| Failure (e : client_error)
| Pending.

Inductive outcome : Type :=
| Passed
| Failed
| Raised (e : exn)
| Errored (e : client_error)
| TimedOut
| Skipped (reason : string).

Section Running.
(** The client under test: the state behind it, and its three methods the
    harness calls. *)
Context {St : Type}.
Variable client_execute : request -> St -> reply * St.
Variables client_resume client_pause : St -> St.

(** The body of a test method: insert, then select, then [check_result];
    each step runs when the Deferred of the step before fires with success,
    and trial times the test out when one never fires. *)
Definition run_body (f : test_method) (primary_key : pyvalue) (st : St)
  : outcome * St :=
  match execute_insert (tm_table f) (tm_column f) (tm_insert f) primary_key with
  | Raises e => (Raised e, st)
  | Returns req =>
      match client_execute req st with
      | (Failure e, st1) => (Errored e, st1)
      | (Pending, st1) => (TimedOut, st1)
      | (Success _, st1) =>
          match client_execute
                  (execute_select (tm_table f) (tm_column f) primary_key) st1 with
          | (Failure e, st2) => (Errored e, st2)
          | (Pending, st2) => (TimedOut, st2)
          | (Success result, st2) =>
              (if check_result f result then Passed else Failed, st2)
          end
      end
  end.

(** One test as trial runs it: nothing when the class carries [skip];
    otherwise [setUp] (the key is the clock in milliseconds, the client is
    resumed), the body, and the clean-up (the client is paused). *)
Definition run_test (skip : option string) (f : test_method)
    (millis : Z) (st : St) : outcome * St :=
  match skip with
  | Some reason => (Skipped reason, st)
  | None =>
      let (o, st') := run_body f (VInt millis) (client_resume st) in
      (o, client_pause st')
  end.
End Running.

(** ** Module-level set-up *)

(** What reaches the outside world while the module is imported. *)
Inductive event : Type :=
| Connect (host port : string)
| CursorExecute (statement : string)
| CursorClose
| NewClient (endpoint keyspace : string).

(** The database as the [cql] driver finds it: whether it can be reached, and
    which statements it accepts. *)
Record world : Type := mk_world {
  connects : string -> string -> bool;
  accepts : string -> bool
}.

(** [s.split(sep)] for a one-character separator. *)
Fixpoint split (sep : ascii) (s : string) : list string :=
  match s with
  | EmptyString => [EmptyString]
  | String c rest =>
      if Ascii.eqb c sep then EmptyString :: split sep rest
      else match split sep rest with
           | [] => [String c EmptyString]
           | part :: parts => String c part :: parts
           end
  end.

(** [cursor.execute] for each statement in turn, stopping at the first one
    the database refuses. *)
Fixpoint cursor_execute_all (w : world) (statements : list string)
  : list event * bool :=
  match statements with
  | [] => ([], true)
  | s :: rest =>
      if accepts w s then
        let (log, ok) := cursor_execute_all w rest in
        (CursorExecute s :: log, ok)
      else ([CursorExecute s], false)
  end.

(** The handle [TestingCQLClient(clientFromString(reactor, endpoint), ks)]. *)
Record client_handle : Type := mk_client {
  client_endpoint : string;
  client_keyspace : string
}.

(** What the module takes from the interpreter and from Twisted, neither of
    them among the sources.  A dict gives its items in an order of the
    interpreter's choosing, the same for [keys()] and [iteritems()] as long as
    the dict is not changed: [iteritems] is that order, some arrangement of
    the items.  [clientFromString] is what
    [clientFromString(reactor, description)] does with a description: the
    endpoint it returns, or the exception it raises. *)
Record platform : Type := mk_platform {
  iteritems : list (string * entry) -> list (string * entry);
  iteritems_permutation : forall d, Permutation (iteritems d) d;
  clientFromString : string -> result string
}.

(** [set_up_cassandra]: the events it causes, and the client it returns.
    [keys] is [cql3_types.keys()].  The [DROP KEYSPACE] sits in a
    [try]/[except] that swallows its failure.  The endpoint of the client
    is made last, after the cursor is closed, and making it can fail. *)
Definition set_up_cassandra (p : platform) (w : world) (keys : list string)
    (endpoint ks : string) : list event * result client_handle :=
  match split ":" endpoint with
  | [host; port] =>
      if connects w host port then
        let (log, ok) :=
          cursor_execute_all w
            [ "CREATE KEYSPACE " +:+ ks +:+ " WITH replication = "
              +:+ "{'class':'SimpleStrategy', 'replication_factor':1}";
              "USE " +:+ ks +:+ ";";
              create_table_test keys;
              create_table_test_counter ] in
        let log := Connect host port
                   :: CursorExecute ("DROP KEYSPACE " +:+ ks +:+ ";") :: log in
        if ok then
          match clientFromString p ("tcp:" +:+ host +:+ ":" +:+ port) with
          | Returns ep =>
              ((log ++ [CursorClose; NewClient ep ks])%list,
               Returns (mk_client ep ks))
          | Raises e => ((log ++ [CursorClose])%list, Raises e)
          end
        else (log, Raises DatabaseError)
      else ([Connect host port], Raises DatabaseError)
  | _ => ([], Raises ValueError)
  end.

(** The module's globals once it is imported. *)
Record module_state : Type := mk_module {
  m_types : list (string * entry);
  m_endpoint : option string;
  m_client : option client_handle;
  m_methods : gmap string test_method;
  m_skip : option string
}.

(** Truth of [_endpoint]: neither [None] nor the empty string. *)
Definition truthy (o : option string) : bool :=
  match o with
  | Some (String _ _) => true
  | _ => false
  end.

(** Importing the module: [getenv] is [os.getenv], [_now] the reading of
    [datetime.utcnow()], [_uuid1] the result of [uuid1()].  The columns of
    the table [test] and the test methods come in the order in which the
    dict [cql3_types] gives its items. *)
Definition import_module (p : platform) (w : world)
    (getenv : string -> option string)
    (_now : datetime) (_uuid1 : Z) : list event * result module_state :=
  match _now_expected _now with
  | Raises e => ([], Raises e)
  | Returns now_expected =>
      let types := cql3_types _now now_expected _uuid1 in
      let _endpoint := getenv "CASSANDRA_ENDPOINT" in
      let (log, client) :=
        match _endpoint with
        | Some (String _ _ as e) =>
            let (log, r) :=
              set_up_cassandra p w (map fst (iteritems p types)) e
                               "test_marshalling" in
            (log, bind r (fun c => Returns (Some c)))
        | _ => ([], Returns None)
        end in
      (log,
       bind client (fun client =>
       Returns (mk_module types _endpoint client
                  (add_test_methods (iteritems p types)
                     {[ "test_none" := test_none ]})
                  (if truthy _endpoint then None
                   else Some "No Cassandra endpoint provided."))))
  end.

(** ** What a literal looks like *)

(** The characters of an integer literal: the digits and the sign. *)
Definition is_literal_char (c : ascii) : bool :=
  Ascii.eqb c "-" || ((48 <=? nat_of_ascii c)%nat && (nat_of_ascii c <=? 57)%nat).

Definition unquoted (s : string) : Prop :=
  Forall (fun c => is_literal_char c = true) (list_ascii_of_string s).

(** ** Hexadecimal *)

Definition hex_digit (c : ascii) : option nat :=
  let n := nat_of_ascii c in
  if ((48 <=? n) && (n <=? 57))%nat then Some (n - 48)%nat
  else if ((97 <=? n) && (n <=? 102))%nat then Some (n - 87)%nat
  else if ((65 <=? n) && (n <=? 70))%nat then Some (n - 55)%nat
  else None.

(** The bytes a string of hexadecimal digits stands for, two digits to the
    byte ([binascii.unhexlify]). *)
Fixpoint unhexlify (s : string) : option string :=
  match s with
  | EmptyString => Some EmptyString
  | String a (String b rest) =>
      match hex_digit a, hex_digit b, unhexlify rest with
      | Some x, Some y, Some r => Some (String (ascii_of_nat (16 * x + y)) r)
      | _, _, _ => None
      end
  | String _ EmptyString => None
  end.

(** ** Counting what an import does *)

Definition is_new_client (e : event) : bool :=
  match e with
  | NewClient _ _ => true
  | _ => false
  end.

(** How many clients an import has built. *)
Definition clients_built (log : list event) : nat :=
  length (List.filter is_new_client log).

(** ** The client, as the spec describes it *)

(** Modelled from the spec: [silverberg.client] (the class [TestingCQLClient]
    with its [execute], [pause] and [resume]) is not under src/; these are
    the wire type tags of its codec registry, one for each type the spec's
    data model lists ("the database's on-the-wire column type tag (e.g.,
    int, text, list<int>)"). *)
Inductive wire_type : Type :=
| TAscii
| TBigint
| TBlob
| TBoolean
| TCounter
| TDecimal
| TDouble
| TFloat
| TInet
| TInt
| TList (element : wire_type)
| TMap (key value : wire_type)
| TSet (element : wire_type)
| TText
| TTimestamp
| TUuid
| TTimeuuid
| TVarchar
| TVarint.

(** Modelled from the spec: the tag of the missing client's registry that
    each key of [cql3_types] names. *)
Definition wire_tags : list (string * wire_type) :=
  [ ("ascii", TAscii); ("bigint", TBigint); ("blob", TBlob);
    ("boolean", TBoolean); ("counter", TCounter); ("decimal", TDecimal);
    ("double", TDouble); ("float", TFloat); ("inet", TInet); ("int", TInt);
    ("list<int>", TList TInt); ("map<int, text>", TMap TInt TText);
    ("set<int>", TSet TInt); ("text", TText); ("timestamp", TTimestamp);
    ("uuid", TUuid); ("timeuuid", TTimeuuid); ("varchar", TVarchar);
    ("varint", TVarint) ].

Fixpoint assoc {A : Type} (k : string) (l : list (string * A)) : option A :=
  match l with
  | [] => None
  | (k', a) :: rest => if String.eqb k k' then Some a else assoc k rest
  end.

Definition wire_type_of (cql_type : string) : option wire_type :=
  assoc cql_type wire_tags.

(** Modelled from the spec: what travels on the wire for one column of the
    missing client: the null marker, or the bytes of an encoded value. *)
Inductive wire : Type :=
| WNull
| WBytes (b : string).

(** Modelled from the spec: an entry of the missing client's Codec Registry,
    "an (encode, decode) function pair"; [None] is the failure of either. *)
Record codec : Type := mk_codec {
  encode_with : pyvalue -> option string;
  decode_with : string -> option pyvalue
}.

(** Modelled from the spec: the two wire types the missing registry has no
    entry for, "arbitrary-precision decimal and IP-address strings", alone
    or as the element of a collection. *)
Fixpoint unsupported (T : wire_type) : bool :=
  match T with
  | TDecimal | TInet => true
  | TList e | TSet e => unsupported e
  | TMap k v => unsupported k || unsupported v
  | _ => false
  end.

(** Modelled from the spec: a request frame of the missing client, as it is
    handed to the transport. *)
Record frame : Type := mk_frame {
  frame_query : string;
  frame_args : gmap string wire;
  frame_consistency : ConsistencyLevel
}.

(** Modelled from the spec: the response frame the transport delivers to the
    missing client: rows in server order, each column with its wire type, or
    a failure. *)
Inductive response : Type :=
| Rows (rows : list (list (string * wire_type * wire)))
| Fault (e : client_error).

(** Modelled from the spec: the lifecycle of the missing client's
    connection, "uninitialized -> connecting -> active <-> paused ->
    closed". *)
Inductive lifecycle : Type :=
| Uninitialized
| Connecting
| Active
| Paused
| Closed.

Section Client.
(** The per-type encodings of the registry, and the database behind the
    transport: both outside what is modelled here. *)
Variable codecs : wire_type -> codec.
Variable Db : Type.
Variable transport : frame -> Db -> response * Db.

(** Modelled from the spec: lookup in the missing Codec Registry; the
    unsupported types "must fail fast at registry lookup". *)
Definition registry (T : wire_type) : option codec :=
  if unsupported T then None else Some (codecs T).

(** Modelled from the spec: [encode(wireType, nativeValue)] of the missing
    registry, which "fails with EncodeError". *)
Definition encode (T : wire_type) (v : pyvalue) : client_error + string :=
  match registry T with
  | None => inl EncodeError
  | Some c =>
      match encode_with c v with
      | Some b => inr b
      | None => inl EncodeError
      end
  end.

(** Modelled from the spec: [decode(wireType, wireBytes)] of the missing
    registry, which "fails with DecodeError". *)
Definition decode (T : wire_type) (b : string) : client_error + pyvalue :=
  match registry T with
  | None => inl DecodeError
  | Some c =>
      match decode_with c b with
      | Some v => inr v
      | None => inl DecodeError
      end
  end.

(** Modelled from the spec: a column value of the missing client on its way
    out; the null marker stands for [None] "independent of declared wire
    type". *)
Definition marshal (T : wire_type) (v : pyvalue) : client_error + wire :=
  match v with
  | VNone => inr WNull
  | _ =>
      match encode T v with
      | inl e => inl e
      | inr b => inr (WBytes b)
      end
  end.

(** Modelled from the spec: a column value of the missing client on its way
    in. *)
Definition unmarshal (T : wire_type) (w : wire) : client_error + pyvalue :=
  match w with
  | WNull => inr VNone
  | WBytes b => decode T b
  end.

(** Modelled from the spec: the missing executor "binds parameters through
    the Codec Registry", each by the wire type that the column metadata
    gives its placeholder; "a mismatch surfaces as an EncodeError". *)
Definition bind_one (meta : gmap string wire_type) (p : string * pyvalue)
  : client_error + (string * wire) :=
  match meta !! fst p with
  | None => inl EncodeError
  | Some T =>
      match marshal T (snd p) with
      | inl e => inl e
      | inr w => inr (fst p, w)
      end
  end.

Fixpoint bind_all (meta : gmap string wire_type) (l : list (string * pyvalue))
  : client_error + list (string * wire) :=
  match l with
  | [] => inr []
  | p :: rest =>
      match bind_one meta p, bind_all meta rest with
      | inr b, inr bs => inr (b :: bs)
      | inl e, _ => inl e
      | _, inl e => inl e
      end
  end.

Definition bind_params (meta : gmap string wire_type)
    (ps : gmap string pyvalue) : client_error + gmap string wire :=
  match bind_all meta (map_to_list ps) with
  | inl e => inl e
  | inr l => inr (list_to_map l)
  end.

(** Modelled from the spec: the missing executor decodes a response row into
    a Row, "a mapping from column name to Column Value (or the null
    marker)". *)
Fixpoint decode_row (cols : list (string * wire_type * wire))
  : client_error + gmap string pyvalue :=
  match cols with
  | [] => inr ∅
  | (c, T, w) :: rest =>
      match unmarshal T w, decode_row rest with
      | inr v, inr r => inr (<[c := v]> r)
      | inl e, _ => inl e
      | _, inl e => inl e
      end
  end.

Fixpoint decode_rows (rows : list (list (string * wire_type * wire)))
  : client_error + list (gmap string pyvalue) :=
  match rows with
  | [] => inr []
  | cols :: rest =>
      match decode_row cols, decode_rows rest with
      | inr r, inr rs => inr (r :: rs)
      | inl e, _ => inl e
      | _, inl e => inl e
      end
  end.

(** Modelled from the spec: the missing Connection: its lifecycle, the
    database behind its transport session, the frames it has sent, and the
    frames of the calls that wait for it to become active. *)
Record connection : Type := mk_connection {
  lifecycle_of : lifecycle;
  database : Db;
  sent : list frame;
  waiting : list frame
}.

(** Modelled from the spec: a frame of the missing client goes to the
    transport and the one response it delivers is decoded; a connection
    "closed mid-flight" latches into [Closed]. *)
Definition submit (fr : frame) (c : connection) : reply * connection :=
  let (resp, db) := transport fr (database c) in
  let c' := mk_connection (lifecycle_of c) db (sent c ++ [fr])%list (waiting c) in
  match resp with
  | Rows rows =>
      match decode_rows rows with
      | inr rs => (Success rs, c')
      | inl e => (Failure e, c')
      end
  | Fault ConnectionClosed =>
      (Failure ConnectionClosed,
       mk_connection Closed db (sent c ++ [fr])%list (waiting c))
  | Fault e => (Failure e, c')
  end.

(** Modelled from the spec: [execute] of the missing client.  A closed
    connection "fails immediately with a ConnectionClosed error"; otherwise
    the parameters are bound first, and a failure to encode ends the call
    before anything is sent; an active connection submits the frame, any
    other one keeps it waiting and the call suspended. *)
Definition execute (meta : gmap string wire_type) (req : request)
    (c : connection) : reply * connection :=
  match lifecycle_of c with
  | Closed => (Failure ConnectionClosed, c)
  | l =>
      match bind_params meta (params req) with
      | inl e => (Failure e, c)
      | inr args =>
          let fr := mk_frame (query req) args (consistency req) in
          match l with
          | Active => submit fr c
          | _ => (Pending,
                  mk_connection l (database c) (sent c) (waiting c ++ [fr])%list)
          end
      end
  end.

(** Modelled from the spec: [pause()] of the missing client; "calling
    pause() while already paused ... is a no-op". *)
Definition pause (c : connection) : connection :=
  match lifecycle_of c with
  | Active => mk_connection Paused (database c) (sent c) (waiting c)
  | _ => c
  end.

(** Modelled from the spec: [resume()] of the missing client; the waiting
    frames reach the transport in the order they were submitted. *)
Definition resume (c : connection) : connection :=
  match lifecycle_of c with
  | Paused =>
      fold_left
        (fun c' fr =>
           match lifecycle_of c' with
           | Active => snd (submit fr c')
           | _ => c'
           end)
        (waiting c)
        (mk_connection Active (database c) (sent c) [])
  | _ => c
  end.

(** Modelled from the spec: [close()] of the missing client. *)
Definition close (c : connection) : connection :=
  mk_connection Closed (database c) (sent c) (waiting c).
End Client.

(** *** A registry and a database to run against *)

(** Modelled from the spec: the integer rule of the missing registry,
    "encode/decode as big-endian two's-complement of the declared width"
    (in bytes). *)
Fixpoint be_bytes (width : nat) (z : Z) : string :=
  match width with
  | O => EmptyString
  | S w =>
      be_bytes w (z / 256)
      +:+ String (ascii_of_nat (Z.to_nat (z mod 256))) EmptyString
  end.

Fixpoint be_value (acc : Z) (s : string) : Z :=
  match s with
  | EmptyString => acc
  | String c rest => be_value (acc * 256 + code_of_ascii c) rest
  end.

Definition int_codec (width : nat) : codec :=
  let half := 2 ^ (8 * Z.of_nat width - 1) in
  mk_codec
    (fun v =>
       match v with
       | VInt z =>
           if (- half <=? z) && (z <? half)
           then Some (be_bytes width (z mod (2 * half)))
           else None
       | _ => None
       end)
    (fun b =>
       if (String.length b =? width)%nat
       then let u := be_value 0 b in
            Some (VInt (if u <? half then u else u - 2 * half))
       else None).

(** Modelled from the spec: the blob rule of the missing registry, "passed
    through unchanged as raw bytes". *)
Definition blob_codec : codec :=
  mk_codec
    (fun v => match v with VStr s => Some s | _ => None end)
    (fun b => Some (VStr b)).

(** Modelled from the spec: a registry for the missing client to run
    against: the integer rule at the declared widths (a timestamp being "a
    64-bit count of milliseconds since epoch"), raw bytes for everything
    else. *)
Definition sample_codecs (T : wire_type) : codec :=
  match T with
  | TInt => int_codec 4
  | TBigint | TCounter | TTimestamp => int_codec 8
  | _ => blob_codec
  end.

Definition wire_eqb (a b : wire) : bool :=
  match a, b with
  | WNull, WNull => true
  | WBytes x, WBytes y => String.eqb x y
  | _, _ => false
  end.

(** Modelled from the spec: a database behind the missing client's
    transport to run against: one column of the table [test], kept as the
    list of the rows written, latest first.  A frame that binds [val] writes
    the column under the bound key; a frame that binds the key alone reads
    it. *)
Definition one_column_db (column : string) (T : wire_type) (fr : frame)
    (db : list (wire * wire)) : response * list (wire * wire) :=
  match frame_args fr !! "key", frame_args fr !! "val" with
  | Some k, Some v => (Rows [], (k, v) :: db)
  | Some k, None =>
      (match List.find (fun kv => wire_eqb (fst kv) k) db with
       | Some kv => Rows [[(column, T, snd kv)]]
       | None => Rows []
       end, db)
  | None, _ => (Fault ProtocolError, db)
  end.

(** Modelled from the spec: the column metadata the missing executor works
    from, for the statements on one column of [test], as its [CREATE TABLE]
    declares them: the key is a timestamp, the column has its type. *)
Definition column_metadata (column : string) (T : wire_type) (q : string)
  : gmap string wire_type :=
  if String.eqb q (query (execute_select "test" column VNone))
  then {[ "key" := TTimestamp ]}
  else {[ "key" := TTimestamp; "val" := T ]}.

(** ** A platform to run against *)

(** A platform whose dicts give their items in the order they were written
    in, and whose [clientFromString] accepts every description and returns
    it as the endpoint. *)
Definition source_order : platform :=
  mk_platform (fun d => d) (fun d => Permutation_refl d) (fun s => Returns s).

(** ** Characters of a string *)

(** How many times a character occurs in a string ([s.count(c)]). *)
Fixpoint count_char (c : ascii) (s : string) : nat :=
  match s with
  | EmptyString => O
  | String x rest =>
      if Ascii.eqb x c then S (count_char c rest) else count_char c rest
  end.

(** The statements [set_up_cassandra] sends after the [DROP KEYSPACE], in
    the order it sends them. *)
Definition set_up_statements (keys : list string) (ks : string) : list string :=
  [ "CREATE KEYSPACE " +:+ ks +:+ " WITH replication = "
    +:+ "{'class':'SimpleStrategy', 'replication_factor':1}";
    "USE " +:+ ks +:+ ";";
    create_table_test keys;
    create_table_test_counter ].

Definition is_cursor_close (e : event) : bool :=
  match e with
  | CursorClose => true
  | _ => false
  end.

(** The text that follows an element in a joined list: nothing, or a comma
    and what comes after it. *)
Definition starts_with_comma_or_empty (t : string) : Prop :=
  t = "" \/ exists t' : string, t = String "," t'.

(** ** The calls a test makes on the client *)

(** One call on the shared client. *)
Inductive call : Type :=
| CallResume
| CallExecute (req : request)
| CallPause.

Section Traced.
(** A client together with the record of the calls made on it, oldest
    first: each method does what the client's does and adds its call. *)
Context {St : Type}.
Variable client_execute : request -> St -> reply * St.
Variables client_resume client_pause : St -> St.

Definition traced_execute (req : request) (t : list call * St)
  : reply * (list call * St) :=
  let (r, st) := client_execute req (snd t) in
  (r, ((fst t ++ [CallExecute req])%list, st)).

Definition traced_resume (t : list call * St) : list call * St :=
  ((fst t ++ [CallResume])%list, client_resume (snd t)).

Definition traced_pause (t : list call * St) : list call * St :=
  ((fst t ++ [CallPause])%list, client_pause (snd t)).
End Traced.

(** ** setup.py: the packages handed to [setup] *)

(** What is on disk at a path: something [lstat] does not report as a
    directory, a directory with its entries in the order [os.listdir] gives
    them, or a directory that [os.listdir] cannot list. *)
#[local] Set Warnings "-register-all".
Inductive node : Type :=
| File
| Dir (entries : list (string * node))
| Unlistable.

Definition starts_with_slash (s : string) : bool :=
  match s with
  | String c _ => Ascii.eqb c "/"
  | EmptyString => false
  end.

Fixpoint ends_with_slash (s : string) : bool :=
  match s with
  | EmptyString => false
  | String c EmptyString => Ascii.eqb c "/"
  | String _ rest => ends_with_slash rest
  end.

(** [posixpath.join(a, b)]. *)
Definition path_join (a b : string) : string :=
  if starts_with_slash b then b
  else if String.eqb a "" || ends_with_slash a then a +:+ b
  else a +:+ "/" +:+ b.

(** [s.replace(old, new)] for single characters. *)
Fixpoint replace_char (old new : ascii) (s : string) : string :=
  match s with
  | EmptyString => EmptyString
  | String c rest =>
      String (if Ascii.eqb c old then new else c) (replace_char old new rest)
  end.

(** [os.path.walk(top, func, arg)] of Python 2: [func] is called with the
    directory and the names in it, then every entry that is a directory is
    walked in turn; a directory that cannot be listed is passed over.  The
    state [func] works on is threaded through. *)
Fixpoint walk {A : Type} (func : string -> list string -> A -> A)
    (top : string) (n : node) (acc : A) : A :=
  match n with
  | Dir entries =>
      (fix each (es : list (string * node)) (acc : A) : A :=
         match es with
         | [] => acc
         | (name, child) :: rest =>
             each rest (walk func (path_join top name) child acc)
         end) entries (func top (map fst entries) acc)
  | File | Unlistable => acc
  end.

(** [visit], on the list [packages] it appends to. *)
Definition visit (directory : string) (files : list string)
    (packages : list string) : list string :=
  if existsb (String.eqb "__init__.py") files
  then (packages ++ [replace_char "/" "." directory])%list
  else packages.

(** [getPackages(base)], with [fs] what is on disk at [base]. *)
Definition getPackages (base : string) (fs : node) : list string :=
  walk visit base fs [].

(** The directories [walk] calls its function on, each with its names:
    [top] itself when it can be listed, and those of the entries of [top]. *)
Inductive visited : string -> node -> string -> list string -> Prop :=
| visited_top (top : string) (entries : list (string * node)) :
    visited top (Dir entries) top (map fst entries)
| visited_sub (top : string) (entries : list (string * node))
    (name : string) (child : node) (d : string) (files : list string) :
    In (name, child) entries ->
    visited (path_join top name) child d files ->
    visited top (Dir entries) d files.

(** The statements a log shows the cursor was given, in order. *)
Definition statements_sent (log : list event) : list string :=
  flat_map (fun e => match e with
                     | CursorExecute s => [s]
                     | _ => []
                     end) log.

(** * Properties *)

(** ** What a test accepts *)

Lemma row_eqb_singleton (r : row) (c : string) (e : pyvalue) :
  row_eqb r {[ c := e ]} = true <->
  exists v : pyvalue, r = {[ c := v ]} /\ py_eqb v e = true.
Proof.
  unfold row_eqb. rewrite andb_true_iff, bool_decide_eq_true, dom_singleton_L.
  split.
  - intros [Hdom Hall]. apply dom_singleton_inv_L in Hdom as [v ->].
    exists v. split; [reflexivity |].
    rewrite map_to_list_singleton in Hall. cbn in Hall.
    rewrite lookup_singleton_eq in Hall. now rewrite andb_true_r in Hall.
  - intros (v & -> & Hv). split; [apply dom_singleton_L |].
    rewrite map_to_list_singleton. cbn.
    rewrite lookup_singleton_eq. now rewrite Hv.
Qed.

Lemma check_result_iff (f : test_method) (result : resultset) :
  check_result f result = true <->
  exists v : pyvalue,
    result = [ {[ tm_column f := v ]} ] /\ py_eqb v (tm_expected f) = true.
Proof.
  unfold check_result, expected_result.
  destruct result as [| r [| r' rest]]; cbn [list_eqb].
  - split; [discriminate | intros (v & [=] & _)].
  - rewrite andb_true_r, row_eqb_singleton. split.
    + intros (v & -> & Hv). now exists v.
    + intros (v & [= ->] & Hv). now exists v.
  - rewrite andb_false_r. split; [discriminate | intros (v & [=] & _)].
Qed.

Lemma run_body_passed {St : Type} (client_execute : request -> St -> reply * St)
    (f : test_method) (primary_key : pyvalue) (st st' : St) :
  run_body client_execute f primary_key st = (Passed, st') <->
  exists (req : request) (inserted : resultset) (st1 : St) (result : resultset),
    execute_insert (tm_table f) (tm_column f) (tm_insert f) primary_key
      = Returns req
    /\ client_execute req st = (Success inserted, st1)
    /\ client_execute (execute_select (tm_table f) (tm_column f) primary_key) st1
       = (Success result, st')
    /\ check_result f result = true.
Proof.
  unfold run_body.
  destruct (execute_insert _ _ _ _) as [req | x].
  2:{ split; [discriminate | intros (? & ? & ? & ? & [=] & _)]. }
  destruct (client_execute req st) as [[ins | x |] st1] eqn:Hins.
  2,3: (split; [discriminate | intros (? & ? & ? & ? & [= <-] & H & _)];
        rewrite Hins in H; discriminate H).
  destruct (client_execute (execute_select _ _ _) st1) as [[res | x |] st2] eqn:Hsel.
  2,3: (split; [discriminate | intros (? & ? & ? & ? & [= <-] & H1 & H2 & _)];
        rewrite Hins in H1; injection H1 as <- <-; rewrite Hsel in H2;
        discriminate H2).
  split.
  - destruct (check_result f res) eqn:Hc; [| discriminate].
    intros [= <-]. now exists req, ins, st1, res.
  - intros (? & ? & ? & ? & [= <-] & H1 & H2 & Hc).
    rewrite Hins in H1. injection H1 as <- <-. rewrite Hsel in H2.
    injection H2 as <- <-. now rewrite Hc.
Qed.

(** ** The two insert statements *)

Lemma execute_insert_counter (table_name : string) (value primary_key : pyvalue) :
  execute_insert table_name "counter_type" value primary_key =
  Returns (mk_request
    ("UPDATE " +:+ table_name
     +:+ " SET counter_type = counter_type + :val WHERE test_key = :key;")
    (<["val" := value]> (<["key" := primary_key]> ∅)) ALL).
Proof. reflexivity. Qed.

Lemma execute_insert_plain (table_name column_name : string)
    (value primary_key : pyvalue) :
  column_name ≠ "counter_type" ->
  column_name ≠ "set_type" ->
  execute_insert table_name column_name value primary_key =
  Returns (mk_request
    ("INSERT INTO " +:+ table_name +:+ " (test_key, " +:+ column_name
     +:+ ") values (:key, :val);")
    (<["val" := value]> (<["key" := primary_key]> ∅)) ALL).
Proof.
  intros Hc Hs. unfold execute_insert.
  apply String.eqb_neq in Hc, Hs. rewrite Hc, Hs. reflexivity.
Qed.

(** Every entry of the table, by cases on its place in it. *)
Ltac each_entry H :=
  cbn [cql3_types In] in H;
  repeat (destruct H as [H | H]; [injection H as <- <- |]);
  [.. | contradiction H].

Lemma counter_column_iff (_now _exp : datetime) (_uuid1 : Z)
    (T : string) (data : entry) :
  In (T, data) (cql3_types _now _exp _uuid1) ->
  (column_of T = "counter_type" <-> T = "counter").
Proof.
  intros H. each_entry H; vm_compute;
    (split; [discriminate | discriminate]) || (split; reflexivity).
Qed.

(** C5: a counter column is written by increment only.  For the column
    [counter_type] the statement of [execute_insert] is the increment
    [UPDATE ... SET counter_type = counter_type + :val WHERE test_key = :key],
    whatever the table and the value; for every column other than
    [counter_type] and [set_type] it is the absolute [INSERT] of the bound
    value; and in the type table the column [counter_type] is the column of
    the type [counter] and of no other type. *)
Theorem counter_written_by_increment_only :
  (forall (table_name : string) (value primary_key : pyvalue),
     execute_insert table_name "counter_type" value primary_key =
     Returns (mk_request
       ("UPDATE " +:+ table_name
        +:+ " SET counter_type = counter_type + :val WHERE test_key = :key;")
       (<["val" := value]> (<["key" := primary_key]> ∅)) ALL))
  /\ (forall (table_name column_name : string) (value primary_key : pyvalue),
        column_name ≠ "counter_type" ->
        column_name ≠ "set_type" ->
        execute_insert table_name column_name value primary_key =
        Returns (mk_request
          ("INSERT INTO " +:+ table_name +:+ " (test_key, " +:+ column_name
           +:+ ") values (:key, :val);")
          (<["val" := value]> (<["key" := primary_key]> ∅)) ALL))
  /\ (forall (_now _exp : datetime) (_uuid1 : Z) (T : string) (data : entry),
        In (T, data) (cql3_types _now _exp _uuid1) ->
        (tm_column (snd (make_test_method T data)) = "counter_type"
         <-> T = "counter")).
Proof.
  split; [exact execute_insert_counter |].
  split; [exact execute_insert_plain |].
  intros n e u T data H. exact (counter_column_iff n e u T data H).
Qed.

Lemma counter_written_by_increment_only_witness :
  execute_insert "test_counter" "counter_type" (VInt 1) (VInt 42) =
    Returns (mk_request
      "UPDATE test_counter SET counter_type = counter_type + :val WHERE test_key = :key;"
      (<["val" := VInt 1]> (<["key" := VInt 42]> ∅)) ALL)
  /\ execute_insert "test" "int_type" (VInt 5) (VInt 42) =
    Returns (mk_request
      "INSERT INTO test (test_key, int_type) values (:key, :val);"
      (<["val" := VInt 5]> (<["key" := VInt 42]> ∅)) ALL).
Proof.
  split.
  - exact (proj1 counter_written_by_increment_only "test_counter" (VInt 1) (VInt 42)).
  - apply (proj1 (proj2 counter_written_by_increment_only) "test" "int_type");
      discriminate.
Defined.

(** ** The set literal *)

Lemma append_assoc (a b c : string) : (a +:+ b) +:+ c = a +:+ (b +:+ c).
Proof.
  induction a as [| x a IH]; [reflexivity |].
  change (String x ((a +:+ b) +:+ c) = String x (a +:+ (b +:+ c))).
  now rewrite IH.
Qed.

Lemma string_of_uint_unquoted (d : Decimal.uint) :
  unquoted (NilEmpty.string_of_uint d).
Proof.
  unfold unquoted.
  induction d; cbn; constructor; solve [reflexivity | assumption].
Qed.

Lemma str_of_Z_unquoted (z : Z) : unquoted (str_of_Z z).
Proof.
  unfold str_of_Z, NilZero.string_of_int, NilZero.string_of_uint.
  destruct (Z.to_int z) as [d | d].
  - destruct d; try apply (string_of_uint_unquoted);
      repeat constructor.
  - unfold unquoted. cbn. constructor; [reflexivity |].
    destruct d; try apply (string_of_uint_unquoted); repeat constructor.
Qed.

Lemma execute_insert_set (table_name : string) (elems : list elem)
    (primary_key : pyvalue) :
  execute_insert table_name "set_type" (VSet elems) primary_key =
  Returns (mk_request
    ("INSERT INTO " +:+ table_name +:+ " (test_key, set_type) values (:key, {"
     +:+ join ", " (map str_of_elem elems) +:+ "});")
    (<["key" := primary_key]> ∅) ALL).
Proof.
  unfold execute_insert. cbn [String.eqb Ascii.eqb Bool.eqb str_items bind].
  cbn. f_equal. f_equal.
  rewrite !append_assoc. reflexivity.
Qed.

Lemma set_value_only_in_set_column (_now _exp : datetime) (_uuid1 : Z)
    (T : string) (data : entry) (elems : list elem) (primary_key : pyvalue) :
  In (T, data) (cql3_types _now _exp _uuid1) ->
  insert data = VSet elems ->
  let f := snd (make_test_method T data) in
  T = "set<int>"
  /\ tm_column f = "set_type"
  /\ execute_insert (tm_table f) (tm_column f) (tm_insert f) primary_key =
     Returns (mk_request
       ("INSERT INTO test (test_key, set_type) values (:key, {"
        +:+ join ", " (map str_of_elem elems) +:+ "});")
       (<["key" := primary_key]> ∅) ALL).
Proof.
  intros H Hv. each_entry H; cbn in Hv; try discriminate Hv.
  injection Hv as <-. cbv zeta. repeat split.
Qed.

(** C6: the elements of an inserted set go into the query text.  For the
    set column the statement of [execute_insert] carries the elements as
    [{e1, e2, ...}], each the [str] of the element, in braces and separated
    by a comma and a space; the entry [val] is gone from the bound
    parameters, which keep the key alone; the [str] of an integer is made of
    digits and a sign, so no quote stands around it; and in the type table
    the one entry that inserts a set is that of [set<int>], whose test targets
    the set column and so sends its elements this way. *)
Theorem set_elements_serialized_into_query :
  (forall (table_name : string) (elems : list elem) (primary_key : pyvalue),
     exists req : request,
       execute_insert table_name "set_type" (VSet elems) primary_key = Returns req
       /\ query req =
          "INSERT INTO " +:+ table_name
          +:+ " (test_key, set_type) values (:key, {"
          +:+ join ", " (map str_of_elem elems) +:+ "});"
       /\ params req = <["key" := primary_key]> ∅
       /\ params req !! "val" = None
       /\ consistency req = ALL)
  /\ (forall z : Z, str_of_elem (EInt z) = str_of_Z z /\ unquoted (str_of_Z z))
  /\ (forall (_now _exp : datetime) (_uuid1 : Z) (T : string) (data : entry)
        (elems : list elem) (primary_key : pyvalue),
        In (T, data) (cql3_types _now _exp _uuid1) ->
        insert data = VSet elems ->
        let f := snd (make_test_method T data) in
        T = "set<int>"
        /\ tm_column f = "set_type"
        /\ execute_insert (tm_table f) (tm_column f) (tm_insert f) primary_key =
           Returns (mk_request
             ("INSERT INTO test (test_key, set_type) values (:key, {"
              +:+ join ", " (map str_of_elem elems) +:+ "});")
             (<["key" := primary_key]> ∅) ALL)).
Proof.
  split; [| split].
  - intros t elems pk. eexists. split; [apply execute_insert_set |].
    cbn [query params consistency]. repeat split.
  - intros z. split; [reflexivity | apply str_of_Z_unquoted].
  - exact set_value_only_in_set_column.
Qed.

Lemma set_elements_serialized_into_query_witness :
  execute_insert "test" "set_type" (VSet [EInt 1; EInt 2; EInt 3; EInt 4]) (VInt 42) =
    Returns (mk_request
      "INSERT INTO test (test_key, set_type) values (:key, {1, 2, 3, 4});"
      (<["key" := VInt 42]> ∅) ALL)
  /\ tm_column (snd (make_test_method "set<int>"
       (mk_entry "A collection of one or more elements"
          (VSet [EInt 1; EInt 2; EInt 3; EInt 4])
          (VSet [EInt 1; EInt 2; EInt 3; EInt 4]) None))) = "set_type".
Proof.
  split.
  - destruct (proj1 set_elements_serialized_into_query "test"
                [EInt 1; EInt 2; EInt 3; EInt 4] (VInt 42))
      as (req & -> & Hq & Hp & _ & Hc).
    destruct req as [q p c]. cbn in Hq, Hp, Hc. subst q p c. reflexivity.
  - refine (proj1 (proj2 (proj2 (proj2 set_elements_serialized_into_query)
             (mk_datetime 2020 1 1 0 0 0 123456)
             (mk_datetime 2020 1 1 0 0 0 123000) 7 "set<int>" _
             [EInt 1; EInt 2; EInt 3; EInt 4] (VInt 42) _ _))).
    + cbn. do 12 right. left. reflexivity.
    + reflexivity.
Defined.

(** ** The two tables *)

Lemma test_has_column (keys : list string) (k : string) :
  In k keys -> k ≠ "counter" ->
  In (column_of k +:+ " " +:+ k) (test_column_defs keys).
Proof.
  intros Hk Hne. right.
  apply (List.in_map (fun k => column_of k +:+ " " +:+ k)).
  apply List.filter_In.
  split; [exact Hk |]. apply negb_true_iff. now apply String.eqb_neq.
Qed.

Lemma test_column_inv (keys : list string) (d : string) :
  In d (test_column_defs keys) ->
  d = "test_key timestamp PRIMARY KEY"
  \/ exists k : string,
       In k keys /\ k ≠ "counter" /\ d = column_of k +:+ " " +:+ k.
Proof.
  intros [<- | Hd]; [left; reflexivity | right].
  apply List.in_map_iff in Hd as (k & <- & Hk).
  apply List.filter_In in Hk as [Hk Hp].
  exists k. repeat split; [exact Hk |].
  apply negb_true_iff in Hp. now apply String.eqb_neq.
Qed.

Section Tables.
Variables (_now _exp : datetime) (_uuid1 : Z).
Let types := cql3_types _now _exp _uuid1.
Let keys := map fst types.

Lemma columns_distinct : NoDup (map column_of keys).
Proof. apply (bool_decide_unpack _). vm_compute. exact I. Qed.

Lemma test_has_no_counter (d : string) :
  In d (test_column_defs keys) -> String.prefix "counter_type " d = false.
Proof.
  intros Hd. apply negb_true_iff. revert d Hd. apply List.forallb_forall.
  vm_compute. reflexivity.
Qed.

Lemma routing (T : string) (data : entry) :
  In (T, data) types ->
  let f := snd (make_test_method T data) in
  tm_table f = (if String.eqb T "counter" then "test_counter" else "test")
  /\ (tm_table f = "test_counter" <-> T = "counter")
  /\ (tm_column f = "counter_type" <-> T = "counter").
Proof.
  intros H. subst types. each_entry H; vm_compute; repeat split; discriminate.
Qed.
End Tables.

(** ** The truncated timestamp *)

Lemma truncation_bounds (us : Z) :
  (us / 1000 * 1000) mod 1000 = 0
  /\ us / 1000 * 1000 <= us < us / 1000 * 1000 + 1000.
Proof.
  split.
  - apply Z.mod_mul. lia.
  - pose proof (Z.div_mod us 1000 ltac:(lia)).
    pose proof (Z.mod_pos_bound us 1000 ltac:(lia)). lia.
Qed.

Lemma datetime_ok_truncated (d : datetime) :
  datetime_ok d = true ->
  datetime_ok (mk_datetime (year d) (month d) (day d) (hour d) (minute d)
                 (second d) (microsecond d / 1000 * 1000)) = true.
Proof.
  unfold datetime_ok. cbn [year month day hour minute second microsecond].
  rewrite !andb_true_iff. intros H.
  repeat match goal with H : _ /\ _ |- _ => destruct H end.
  pose proof (truncation_bounds (microsecond d)) as [_ Hb].
  repeat split; try assumption; apply Z.leb_le;
    match goal with
    | H1 : (0 <=? microsecond d) = true, H2 : (microsecond d <=? 999999) = true |- _ =>
        apply Z.leb_le in H1, H2; try lia
    end.
Qed.

Lemma now_expected_returns (_now : datetime) :
  datetime_ok _now = true ->
  _now_expected _now =
  Returns (mk_datetime (year _now) (month _now) (day _now) (hour _now)
             (minute _now) (second _now) (microsecond _now / 1000 * 1000)).
Proof.
  intros Hok. unfold _now_expected, datetime_new. cbv zeta.
  now rewrite (datetime_ok_truncated _now Hok).
Qed.

(** X16: the timestamp the harness expects back is the inserted one with its
    microseconds cut down to whole milliseconds.  For every valid reading
    [_now] of the clock, [_now_expected] is computed without error, has the
    date, hour, minute and second of [_now], and has for microseconds
    [microsecond / 1000 * 1000] under integer division: a multiple of 1000,
    never above the input and less than 1000 below it (so never rounded up),
    and strictly below it when the input has sub-millisecond precision.  The
    table's timestamp entry inserts [_now] and expects that value, and so
    does the test generated from it: it accepts the truncated value read
    back, and rejects the untruncated input when that has sub-millisecond
    precision. *)
Theorem timestamp_truncated_to_milliseconds (_now : datetime) :
  datetime_ok _now = true ->
  exists e : datetime,
    _now_expected _now = Returns e
    /\ (year e, month e, day e) = (year _now, month _now, day _now)
    /\ (hour e, minute e, second e) = (hour _now, minute _now, second _now)
    /\ microsecond e = microsecond _now / 1000 * 1000
    /\ microsecond e mod 1000 = 0
    /\ microsecond e <= microsecond _now < microsecond e + 1000
    /\ (microsecond _now mod 1000 ≠ 0 -> microsecond e < microsecond _now)
    /\ (forall _uuid1 : Z,
          In ("timestamp",
              mk_entry "Date plus time, encoded as 8 bytes since epoch"
                       (VDatetime _now) (VDatetime e) None)
             (cql3_types _now e _uuid1)
          /\ In ("test_timestamp",
                 mk_test_method "test" "timestamp_type"
                                (VDatetime _now) (VDatetime e))
                (generated_tests (cql3_types _now e _uuid1)))
    /\ check_result
         (mk_test_method "test" "timestamp_type" (VDatetime _now) (VDatetime e))
         [ {[ "timestamp_type" := VDatetime e ]} ] = true
    /\ (microsecond _now mod 1000 ≠ 0 ->
        check_result
          (mk_test_method "test" "timestamp_type" (VDatetime _now) (VDatetime e))
          [ {[ "timestamp_type" := VDatetime _now ]} ] = false)
    /\ (forall (p : platform) (w : world) (getenv : string -> option string)
          (_uuid1 : Z) (log : list event) (m : module_state),
          import_module p w getenv _now _uuid1 = (log, Returns m) ->
          m_types m = cql3_types _now e _uuid1).
Proof.
  intros Hok.
  pose proof (datetime_ok_truncated _now Hok) as Hok'.
  pose proof (truncation_bounds (microsecond _now)) as [Hmod Hb].
  eexists. split; [exact (now_expected_returns _now Hok) |].
  cbn [year month day hour minute second microsecond].
  repeat apply conj; try reflexivity; try assumption; try lia.
  - intros Hne. pose proof (Z.div_mod (microsecond _now) 1000 ltac:(lia)). lia.
  - intros u. split.
    + cbn. do 14 right. left. reflexivity.
    + cbn. do 12 right. left. reflexivity.
  - apply check_result_iff. eexists. split; [reflexivity |].
    cbn [tm_expected py_eqb]. unfold datetime_eqb. now rewrite !Z.eqb_refl.
  - intros Hne. apply not_true_is_false. intros Hc.
    apply check_result_iff in Hc as (v & Hrow & Hv).
    cbn [tm_column tm_expected] in Hrow, Hv.
    apply (f_equal (fun l => match l with
                             | [r] => r !! "timestamp_type"
                             | _ => None
                             end)) in Hrow.
    rewrite !lookup_singleton_eq in Hrow. injection Hrow as <-.
    cbn [py_eqb] in Hv. unfold datetime_eqb in Hv.
    cbn [year month day hour minute second microsecond] in Hv.
    rewrite !andb_true_iff in Hv. destruct Hv as [_ Hus].
    apply Z.eqb_eq in Hus.
    pose proof (Z.div_mod (microsecond _now) 1000 ltac:(lia)). lia.
  - intros p w getenv u log m. unfold import_module, _now_expected, datetime_new.
    cbv zeta. rewrite Hok'.
    destruct (getenv "CASSANDRA_ENDPOINT") as [[| c s] |];
      try (intros [= _ <-]; reflexivity).
    destruct (set_up_cassandra _ _ _ _) as [l [c0 | x]];
      intros [= _ <-] || intros [= _]; reflexivity || discriminate.
Qed.

Lemma timestamp_truncated_to_milliseconds_witness :
  exists e : datetime,
    _now_expected (mk_datetime 2020 1 1 0 0 0 123456) = Returns e
    /\ (year e, month e, day e) = (2020, 1, 1)
    /\ (hour e, minute e, second e) = (0, 0, 0)
    /\ microsecond e = 123000.
Proof.
  destruct (timestamp_truncated_to_milliseconds
              (mk_datetime 2020 1 1 0 0 0 123456) eq_refl)
    as (e & He & Hd & Ht & Hus & _).
  exists e. repeat split; assumption.
Defined.

(** ** Setting the methods on the class *)

Lemma setattr_all_other (l : list (string * test_method))
    (cls : gmap string test_method) (name : string) :
  (forall f : test_method, ~ In (name, f) l) ->
  fold_left (fun c nf => <[fst nf := snd nf]> c) l cls !! name = cls !! name.
Proof.
  revert cls. induction l as [| [n f] l IH]; intros cls Hn; [reflexivity |].
  cbn [fold_left fst snd]. rewrite IH.
  - apply lookup_insert_ne. intros ->. apply (Hn f). left. reflexivity.
  - intros g Hg. apply (Hn g). right. exact Hg.
Qed.

Lemma setattr_all_last (l1 l2 : list (string * test_method))
    (cls : gmap string test_method) (name : string) (f : test_method) :
  (forall g : test_method, ~ In (name, g) l2) ->
  fold_left (fun c nf => <[fst nf := snd nf]> c) (l1 ++ (name, f) :: l2) cls
    !! name = Some f.
Proof.
  intros Hn. rewrite fold_left_app. cbn [fold_left fst snd].
  rewrite (setattr_all_other l2 _ name Hn). apply lookup_insert_eq.
Qed.

Lemma setattr_all_distinct (l : list (string * test_method))
    (cls : gmap string test_method) (name : string) (f : test_method) :
  List.NoDup (map fst l) -> In (name, f) l ->
  fold_left (fun c nf => <[fst nf := snd nf]> c) l cls !! name = Some f.
Proof.
  intros Hnd Hin. apply in_split in Hin as (l1 & l2 & ->).
  apply setattr_all_last. intros g Hg.
  rewrite map_app in Hnd. cbn [map fst] in Hnd.
  apply List.NoDup_remove_2 in Hnd. apply Hnd. apply in_or_app. right.
  exact (in_map fst l2 (name, g) Hg).
Qed.

Lemma generated_names_distinct (_now _exp : datetime) (_uuid1 : Z) :
  List.NoDup (map fst (generated_tests (cql3_types _now _exp _uuid1))).
Proof.
  cbn. repeat (constructor; [cbn; intuition discriminate |]). constructor.
Qed.

Lemma generated_tests_permuted (l l' : list (string * entry))
    (nf : string * test_method) :
  Permutation l' l -> In nf (generated_tests l') -> In nf (generated_tests l).
Proof.
  intros Hp. unfold generated_tests. rewrite !in_map_iff.
  intros (kd & Hkd & Hin). exists kd. split; [exact Hkd |].
  apply List.filter_In in Hin as [Hin Hs]. apply List.filter_In.
  split; [exact (Permutation_in kd Hp Hin) | exact Hs].
Qed.

Lemma test_none_stays_in_any_order (p : platform) (_now _exp : datetime)
    (_uuid1 : Z) :
  add_test_methods (iteritems p (cql3_types _now _exp _uuid1))
    {[ "test_none" := test_none ]} !! "test_none" = Some test_none.
Proof.
  unfold add_test_methods.
  rewrite setattr_all_other; [apply lookup_singleton_eq |].
  intros f Hin.
  apply (generated_tests_permuted _ _ _ (iteritems_permutation p _)) in Hin.
  cbn in Hin.
  repeat (destruct Hin as [Hin | Hin]; [discriminate Hin |]). destruct Hin.
Qed.

(** ** The import *)

Lemma cursor_execute_all_builds_nothing (w : world) (statements : list string) :
  List.filter is_new_client (fst (cursor_execute_all w statements)) = [].
Proof.
  induction statements as [| s rest IH]; cbn; [reflexivity |].
  destruct (accepts w s); [| reflexivity].
  destruct (cursor_execute_all w rest) as [log ok]. cbn in *. exact IH.
Qed.

Lemma set_up_cassandra_builds (p : platform) (w : world) (keys : list string)
    (endpoint ks : string) :
  match snd (set_up_cassandra p w keys endpoint ks) with
  | Returns _ =>
      clients_built (fst (set_up_cassandra p w keys endpoint ks)) = 1%nat
  | Raises _ =>
      clients_built (fst (set_up_cassandra p w keys endpoint ks)) = 0%nat
  end.
Proof.
  unfold set_up_cassandra, clients_built.
  destruct (split ":" endpoint) as [| host [| port [| x parts]]]; try reflexivity.
  destruct (connects w host port); [| reflexivity].
  pose proof (cursor_execute_all_builds_nothing w
    [ "CREATE KEYSPACE " +:+ ks +:+ " WITH replication = "
      +:+ "{'class':'SimpleStrategy', 'replication_factor':1}";
      "USE " +:+ ks +:+ ";";
      create_table_test keys;
      create_table_test_counter ]) as H.
  destruct (cursor_execute_all w _) as [log ok]. cbn [fst] in H.
  destruct ok; cbn [fst snd List.filter is_new_client].
  - destruct (clientFromString p _) as [ep | x]; cbn [fst snd];
      rewrite List.filter_app; cbn; rewrite H; reflexivity.
  - cbn. rewrite H. reflexivity.
Qed.

Lemma skipped_test {St : Type} (client_execute : request -> St -> reply * St)
    (client_resume client_pause : St -> St) (reason : string)
    (f : test_method) (millis : Z) (st : St) :
  run_test client_execute client_resume client_pause (Some reason) f millis st
  = (Skipped reason, st).
Proof. reflexivity. Qed.

Lemma test_none_stays (_now _exp : datetime) (_uuid1 : Z) :
  add_test_methods (cql3_types _now _exp _uuid1) {[ "test_none" := test_none ]}
    !! "test_none" = Some test_none.
Proof. vm_compute. reflexivity. Qed.

(** C9: the shared client is built at most once, at import, and only with an
    endpoint.  Whatever the environment and the database, an import builds
    at most one client; it builds one only when [CASSANDRA_ENDPOINT] is set
    (and not empty); the module's [client] is set exactly when one was
    built, and the class carries [skip] exactly when [_endpoint] is not
    true.  When the variable is unset the import causes no event at all (no
    connection, no statement, no client), leaves [client] at [None], and
    every test method of the class, [test_none] among them, is skipped
    without touching the client. *)
Theorem client_built_once_and_only_with_endpoint (p : platform) (w : world)
    (getenv : string -> option string) (_now : datetime) (_uuid1 : Z) :
  let log := fst (import_module p w getenv _now _uuid1) in
  let r := snd (import_module p w getenv _now _uuid1) in
  (clients_built log <= 1)%nat
  /\ (clients_built log = 1%nat ->
      exists e : string, getenv "CASSANDRA_ENDPOINT" = Some e /\ e ≠ "")
  /\ (forall m : module_state, r = Returns m ->
        (is_Some (m_client m) <-> clients_built log = 1%nat)
        /\ (m_skip m = None <-> truthy (getenv "CASSANDRA_ENDPOINT") = true)
        /\ (m_client m = None <-> m_skip m = Some "No Cassandra endpoint provided."))
  /\ (getenv "CASSANDRA_ENDPOINT" = None ->
      datetime_ok _now = true ->
      log = []
      /\ exists m : module_state,
           r = Returns m
           /\ m_client m = None
           /\ m_skip m = Some "No Cassandra endpoint provided."
           /\ m_methods m !! "test_none" = Some test_none
           /\ forall (St : Type) (client_execute : request -> St -> reply * St)
                (client_resume client_pause : St -> St)
                (name : string) (f : test_method) (millis : Z) (st : St),
                m_methods m !! name = Some f ->
                run_test client_execute client_resume client_pause
                         (m_skip m) f millis st
                = (Skipped "No Cassandra endpoint provided.", st)).
Proof.
  cbv zeta. unfold import_module.
  destruct (_now_expected _now) as [ne | x] eqn:Hne.
  2:{ cbn [fst snd]. unfold clients_built. cbn [List.filter length].
      repeat apply conj; try lia; try discriminate.
      intros Hnone Hok. exfalso.
      rewrite (now_expected_returns _now Hok) in Hne. discriminate Hne. }
  pose proof (test_none_stays_in_any_order p _now ne _uuid1) as Hnone.
  set (types := cql3_types _now ne _uuid1) in *.
  set (cls := add_test_methods (iteritems p types) _) in *.
  set (keys := map fst (iteritems p types)).
  clearbody cls keys. clearbody types.
  destruct (getenv "CASSANDRA_ENDPOINT") as [[| c s] |] eqn:Henv.
  - cbn [fst snd bind truthy]. unfold clients_built. cbn [List.filter length].
    repeat apply conj; try lia; try discriminate.
    intros m [= <-]. cbn [m_client m_skip].
    repeat split; intros H; try discriminate H; try lia;
      try (destruct H as [? H]; discriminate H).
  - pose proof (set_up_cassandra_builds p w keys (String c s)
                  "test_marshalling") as Hb.
    destruct (set_up_cassandra _ _ _ _) as [log [cl | x]];
      cbn [fst snd bind truthy] in Hb |- *.
    + repeat apply conj; try lia; try discriminate.
      * intros _. exists (String c s). split; [reflexivity | discriminate].
      * intros m [= <-]. cbn [m_client m_skip].
        repeat split; intros H; try discriminate H; try lia; eauto.
    + repeat apply conj; try lia; try discriminate.
  - cbn [fst snd bind truthy]. unfold clients_built. cbn [List.filter length].
    repeat apply conj; try lia; try discriminate.
    + intros m [= <-]. cbn [m_client m_skip].
      repeat split; intros H; try discriminate H; try lia;
        try (destruct H as [? H]; discriminate H).
    + intros _ _. split; [reflexivity |].
      eexists. split; [reflexivity |]. cbn [m_client m_skip m_methods].
      repeat split. exact Hnone.
Qed.

Lemma client_built_once_and_only_with_endpoint_witness :
  fst (import_module source_order (mk_world (fun _ _ => true) (fun _ => true))
         (fun _ => None) (mk_datetime 2020 1 1 0 0 0 123456) 7) = []
  /\ exists m : module_state,
       snd (import_module source_order
              (mk_world (fun _ _ => true) (fun _ => true))
              (fun _ => None) (mk_datetime 2020 1 1 0 0 0 123456) 7) = Returns m
       /\ m_client m = None
       /\ m_skip m = Some "No Cassandra endpoint provided.".
Proof.
  pose proof (client_built_once_and_only_with_endpoint source_order
                (mk_world (fun _ _ => true) (fun _ => true))
                (fun _ => None) (mk_datetime 2020 1 1 0 0 0 123456) 7) as H.
  cbv zeta in H. destruct H as (_ & _ & _ & H).
  destruct (H eq_refl eq_refl) as (Hlog & m & Hm & Hc & Hs & _).
  split; [exact Hlog |]. exists m. repeat split; assumption.
Defined.

Lemma expected_equals_itself (_now _exp : datetime) (_uuid1 : Z)
    (T : string) (data : entry) :
  In (T, data) (cql3_types _now _exp _uuid1) ->
  py_eqb (expected data) (expected data) = true.
Proof.
  intros H. each_entry H; try reflexivity;
    cbn [expected py_eqb]; unfold datetime_eqb; rewrite ?Z.eqb_refl; reflexivity.
Qed.

Lemma unsupported_iff (_now _exp : datetime) (_uuid1 : Z)
    (T : string) (data : entry) :
  In (T, data) (cql3_types _now _exp _uuid1) ->
  (get_supported data = false <-> T = "decimal" \/ T = "inet").
Proof.
  intros H. each_entry H; cbn; split;
    solve [discriminate | intros [? | ?]; discriminate | auto].
Qed.

Lemma expected_is_inserted (_now _exp : datetime) (_uuid1 : Z)
    (T : string) (data : entry) :
  In (T, data) (cql3_types _now _exp _uuid1) ->
  T ≠ "timestamp" -> T ≠ "blob" -> expected data = insert data.
Proof.
  intros H Ht Hb. each_entry H; solve [reflexivity | congruence].
Qed.

(** X15: what each generated test requires of the client.  For
    every entry of the type table: it is passed over exactly when its type is
    [decimal] or [inet]; otherwise a test is generated that inserts the
    entry's value into the column [<shortname>_type], selects that column
    under the same key, and passes exactly when both statements succeed and
    the selected result is the one-row ResultSet
    [[{"<shortname>_type": v}]] with [v == expected]; and the expected value
    is the inserted one for every supported type other than [timestamp] and
    [blob]. *)
Theorem round_trip_expectations (_now _exp : datetime) (_uuid1 : Z)
    (T : string) (data : entry) :
  In (T, data) (cql3_types _now _exp _uuid1) ->
  let f := snd (make_test_method T data) in
  (get_supported data = false <-> T = "decimal" \/ T = "inet")
  /\ (get_supported data = true ->
      In (make_test_method T data)
         (generated_tests (cql3_types _now _exp _uuid1)))
  /\ tm_column f = short_name T +:+ "_type"
  /\ tm_insert f = insert data
  /\ expected_result f = [ {[ short_name T +:+ "_type" := expected data ]} ]
  /\ check_result f (expected_result f) = true
  /\ (forall result : resultset,
        check_result f result = true <->
        exists v : pyvalue,
          result = [ {[ short_name T +:+ "_type" := v ]} ]
          /\ py_eqb v (expected data) = true)
  /\ (forall (St : Type) (client_execute : request -> St -> reply * St)
        (primary_key : pyvalue) (st st' : St),
        run_body client_execute f primary_key st = (Passed, st') <->
        exists (req : request) (inserted : resultset) (st1 : St)
               (result : resultset),
          execute_insert (tm_table f) (short_name T +:+ "_type") (insert data)
                         primary_key = Returns req
          /\ client_execute req st = (Success inserted, st1)
          /\ client_execute
               (execute_select (tm_table f) (short_name T +:+ "_type") primary_key)
               st1 = (Success result, st')
          /\ check_result f result = true)
  /\ (get_supported data = true -> T ≠ "timestamp" -> T ≠ "blob" ->
      expected data = insert data).
Proof.
  intros H. cbv zeta. repeat apply conj.
  - exact (proj1 (unsupported_iff _ _ _ _ _ H)).
  - exact (proj2 (unsupported_iff _ _ _ _ _ H)).
  - intros Hs. unfold generated_tests.
    apply (List.in_map (fun kd => make_test_method (fst kd) (snd kd)) _ (T, data)).
    apply List.filter_In. split; [exact H | exact Hs].
  - reflexivity.
  - reflexivity.
  - reflexivity.
  - apply check_result_iff. eexists. split; [reflexivity |].
    exact (expected_equals_itself _ _ _ _ _ H).
  - intros result. apply (check_result_iff (snd (make_test_method T data))).
  - intros St client_execute primary_key st st'.
    apply (run_body_passed client_execute (snd (make_test_method T data))).
  - intros _. exact (expected_is_inserted _ _ _ _ _ H).
Qed.

Lemma round_trip_expectations_witness :
  check_result (mk_test_method "test" "int_type" (VInt 5) (VInt 5))
               [ {[ "int_type" := VInt 5 ]} ] = true
  /\ expected (mk_entry "32-bit signed integer" (VInt 5) (VInt 5) None)
     = insert (mk_entry "32-bit signed integer" (VInt 5) (VInt 5) None).
Proof.
  assert (Hin : In ("int", mk_entry "32-bit signed integer" (VInt 5) (VInt 5) None)
                   (cql3_types (mk_datetime 2020 1 1 0 0 0 123456)
                               (mk_datetime 2020 1 1 0 0 0 123000) 7)).
  { cbn. do 9 right. left. reflexivity. }
  pose proof (round_trip_expectations _ _ _ _ _ Hin) as H. cbv zeta in H.
  destruct H as (_ & _ & _ & _ & _ & Hcheck & _ & _ & Heq).
  split; [exact Hcheck |]. apply Heq; [reflexivity | discriminate | discriminate].
Defined.

(** The entry of [blob] is supported and is not the timestamp, yet the value
    it expects back is not the value it inserts, and a select that returned
    the inserted value would fail the test. *)
Lemma blob_expected_is_not_the_inserted_value :
  exists (T : string) (data : entry),
    (forall (_now _exp : datetime) (_uuid1 : Z),
       In (T, data) (cql3_types _now _exp _uuid1))
    /\ get_supported data = true
    /\ T ≠ "timestamp"
    /\ expected data ≠ insert data
    /\ py_eqb (expected data) (insert data) = false
    /\ check_result (snd (make_test_method T data))
         [ {[ short_name T +:+ "_type" := insert data ]} ] = false.
Proof.
  exists "blob",
    (mk_entry "Arbitrary bytes (no validation), expressed as hexadecimal"
              (VStr "6d796b657931") (VStr "mykey1") None).
  repeat apply conj; try reflexivity; try discriminate.
  intros n e u. cbn. do 2 right. left. reflexivity.
Qed.

(** ** The blob *)

(** X17: a blob is given as a hexadecimal string and
    expected back as the bytes that string denotes.  The table's [blob]
    entry inserts ['6d796b657931'] and expects ['mykey1'], the bytes these
    hexadecimal digits stand for; [execute_insert] hands the hexadecimal
    string to the client unchanged, as the bound parameter [val] of an
    absolute [INSERT] into [blob_type] (the harness decodes nothing); and
    the test passes exactly when the select yields a single row
    [{"blob_type": v}] with [v == 'mykey1']. *)
Theorem blob_given_as_hex_expected_as_bytes :
  let data :=
    mk_entry "Arbitrary bytes (no validation), expressed as hexadecimal"
             (VStr "6d796b657931") (VStr "mykey1") None in
  let f := mk_test_method "test" "blob_type" (VStr "6d796b657931") (VStr "mykey1") in
  (forall (_now _exp : datetime) (_uuid1 : Z),
     In ("blob", data) (cql3_types _now _exp _uuid1)
     /\ In ("test_blob", f) (generated_tests (cql3_types _now _exp _uuid1)))
  /\ unhexlify "6d796b657931" = Some "mykey1"
  /\ (forall primary_key : pyvalue,
        execute_insert "test" "blob_type" (VStr "6d796b657931") primary_key =
        Returns (mk_request
          "INSERT INTO test (test_key, blob_type) values (:key, :val);"
          (<["val" := VStr "6d796b657931"]> (<["key" := primary_key]> ∅)) ALL))
  /\ (forall result : resultset,
        check_result f result = true <->
        exists v : pyvalue,
          result = [ {[ "blob_type" := v ]} ]
          /\ py_eqb v (VStr "mykey1") = true)
  /\ check_result f [ {[ "blob_type" := VStr "mykey1" ]} ] = true
  /\ (forall (St : Type) (client_execute : request -> St -> reply * St)
        (primary_key : pyvalue) (st st' : St),
        run_body client_execute f primary_key st = (Passed, st') <->
        exists (inserted : resultset) (st1 : St) (v : pyvalue),
          client_execute
            (mk_request
               "INSERT INTO test (test_key, blob_type) values (:key, :val);"
               (<["val" := VStr "6d796b657931"]> (<["key" := primary_key]> ∅))
               ALL) st = (Success inserted, st1)
          /\ client_execute (execute_select "test" "blob_type" primary_key) st1
             = (Success [ {[ "blob_type" := v ]} ], st')
          /\ py_eqb v (VStr "mykey1") = true).
Proof.
  cbv zeta. repeat apply conj; try reflexivity.
  - intros n e u. split; cbn; do 2 right; left; reflexivity.
  - intros result.
    apply (check_result_iff
             (mk_test_method "test" "blob_type" (VStr "6d796b657931") (VStr "mykey1"))).
  - intros St client_execute pk st st'. rewrite run_body_passed. split.
    + intros (req & ins & st1 & res & [= <-] & Hi & Hs & Hc).
      apply check_result_iff in Hc as (v & -> & Hv). now exists ins, st1, v.
    + intros (ins & st1 & v & Hi & Hs & Hv).
      eexists _, ins, st1, _. repeat split; [exact Hi | exact Hs |].
      apply check_result_iff. now exists v.
Qed.

Lemma blob_given_as_hex_expected_as_bytes_witness :
  exists v : pyvalue,
    [ ({[ "blob_type" := VStr "mykey1" ]} : gmap string pyvalue) ]
    = [ {[ "blob_type" := v ]} ]
    /\ py_eqb v (VStr "mykey1") = true.
Proof.
  pose proof blob_given_as_hex_expected_as_bytes as H. cbv zeta in H.
  destruct H as (_ & _ & _ & Hiff & Hok & _).
  exact (proj1 (Hiff _) Hok).
Defined.

(** The harness does not decode the hexadecimal string: it reaches the
    client as the bound value, as it is written in the table; and the test
    rejects a select that returns the string that was handed in. *)
Lemma blob_hex_reaches_the_client_undecoded :
  exists req : request,
    execute_insert "test" "blob_type" (VStr "6d796b657931") (VInt 42) = Returns req
    /\ params req !! "val" = Some (VStr "6d796b657931")
    /\ params req !! "val" ≠ Some (VStr "mykey1")
    /\ check_result
         (mk_test_method "test" "blob_type" (VStr "6d796b657931") (VStr "mykey1"))
         [ {[ "blob_type" := VStr "6d796b657931" ]} ] = false.
Proof.
  eexists. split; [reflexivity |]. cbn [params].
  repeat apply conj; try reflexivity. discriminate.
Qed.

(** ** The client of the spec: unsupported types *)

Section ClientFacts.
Variable codecs : wire_type -> codec.
Variable Db : Type.
Variable transport : frame -> Db -> response * Db.

Lemma encode_unsupported (T : wire_type) (v : pyvalue) :
  unsupported T = true -> encode codecs T v = inl EncodeError.
Proof. intros H. unfold encode, registry. now rewrite H. Qed.

Lemma marshal_error (T : wire_type) (v : pyvalue) (e : client_error) :
  marshal codecs T v = inl e -> e = EncodeError.
Proof.
  unfold marshal, encode.
  destruct v; try discriminate;
    (destruct (registry codecs T) as [c |]; [| now intros [= <-]]);
    (destruct (encode_with c _); [discriminate | now intros [= <-]]).
Qed.

Lemma bind_one_error (meta : gmap string wire_type) (p : string * pyvalue)
    (e : client_error) :
  bind_one codecs meta p = inl e -> e = EncodeError.
Proof.
  unfold bind_one. destruct (meta !! p.1) as [T |]; [| now intros [= <-]].
  destruct (marshal codecs T p.2) as [e' | w] eqn:Hm; [| discriminate].
  intros [= <-]. exact (marshal_error _ _ _ Hm).
Qed.

Lemma bind_all_error (meta : gmap string wire_type)
    (l : list (string * pyvalue)) (e : client_error) :
  bind_all codecs meta l = inl e -> e = EncodeError.
Proof.
  revert e. induction l as [| p rest IH]; cbn; [discriminate |]. intros e.
  destruct (bind_one codecs meta p) as [e1 | b] eqn:H1.
  - intros [= <-]. exact (bind_one_error _ _ _ H1).
  - destruct (bind_all codecs meta rest) as [e2 | bs]; [| discriminate].
    intros [= <-]. now apply IH.
Qed.

Lemma bind_all_fails (meta : gmap string wire_type)
    (l : list (string * pyvalue)) (p : string * pyvalue) :
  p ∈ l ->
  bind_one codecs meta p = inl EncodeError ->
  bind_all codecs meta l = inl EncodeError.
Proof.
  intros Hin Hp. induction Hin as [p rest | p q rest Hin IH]; cbn.
  - now rewrite Hp.
  - rewrite (IH Hp).
    destruct (bind_one codecs meta q) as [e | b] eqn:Hq; [| reflexivity].
    now rewrite (bind_one_error _ _ _ Hq).
Qed.

Lemma bind_params_unsupported (meta : gmap string wire_type)
    (ps : gmap string pyvalue) (name : string) (T : wire_type) (v : pyvalue) :
  unsupported T = true ->
  meta !! name = Some T ->
  ps !! name = Some v ->
  v ≠ VNone ->
  bind_params codecs meta ps = inl EncodeError.
Proof.
  intros HT Hmeta Hps Hv. unfold bind_params.
  rewrite (bind_all_fails meta (map_to_list ps) (name, v)); [reflexivity | |].
  - now apply elem_of_map_to_list.
  - unfold bind_one. cbn [fst snd]. rewrite Hmeta. unfold marshal.
    rewrite (encode_unsupported T v HT). now destruct v.
Qed.

Lemma execute_unsupported (meta : gmap string wire_type) (req : request)
    (c : connection Db) (name : string) (T : wire_type) (v : pyvalue) :
  unsupported T = true ->
  meta !! name = Some T ->
  params req !! name = Some v ->
  v ≠ VNone ->
  snd (execute codecs Db transport meta req c) = c
  /\ (lifecycle_of Db c ≠ Closed ->
      fst (execute codecs Db transport meta req c) = Failure EncodeError).
Proof.
  intros HT Hmeta Hps Hv. unfold execute.
  rewrite (bind_params_unsupported meta (params req) name T v HT Hmeta Hps Hv).
  destruct (lifecycle_of Db c); cbn; split; congruence.
Qed.
End ClientFacts.

Lemma generated_tests_columns (_now _exp : datetime) (_uuid1 : Z)
    (name : string) (f : test_method) :
  In (name, f) (generated_tests (cql3_types _now _exp _uuid1)) ->
  tm_column f ≠ "decimal_type" /\ tm_column f ≠ "inet_type".
Proof.
  intros H. cbn in H.
  repeat (destruct H as [[= <- <-] | H]; [split; discriminate |]).
  destruct H.
Qed.

(** C4: the two unsupported types fail before any I/O.  In the client of the
    spec the registry has no entry for [decimal] and [inet], so encoding any
    value for either fails with [EncodeError]; an [execute] that binds a
    value (other than the null marker) to a placeholder of either type
    leaves the connection exactly as it was, nothing sent and nothing queued,
    and on a connection that is not closed it fails with [EncodeError].  In
    the harness the entries of [decimal] and [inet] are the ones marked
    unsupported, and no test method, generated or not, targets their
    columns, so no insert for them is ever built. *)
Theorem decimal_and_inet_fail_before_any_io :
  (wire_type_of "decimal" = Some TDecimal /\ wire_type_of "inet" = Some TInet)
  /\ (forall (codecs : wire_type -> codec) (T : wire_type) (v : pyvalue),
        T = TDecimal \/ T = TInet ->
        registry codecs T = None /\ encode codecs T v = inl EncodeError)
  /\ (forall (codecs : wire_type -> codec) (Db : Type)
        (transport : frame -> Db -> response * Db)
        (meta : gmap string wire_type) (req : request) (c : connection Db)
        (name : string) (T : wire_type) (v : pyvalue),
        T = TDecimal \/ T = TInet ->
        meta !! name = Some T ->
        params req !! name = Some v ->
        v ≠ VNone ->
        snd (execute codecs Db transport meta req c) = c
        /\ (lifecycle_of Db c ≠ Closed ->
            fst (execute codecs Db transport meta req c) = Failure EncodeError))
  /\ (forall (_now _exp : datetime) (_uuid1 : Z) (T : string) (data : entry),
        In (T, data) (cql3_types _now _exp _uuid1) ->
        (get_supported data = false <-> T = "decimal" \/ T = "inet"))
  /\ (forall (_now _exp : datetime) (_uuid1 : Z) (name : string)
        (f : test_method),
        In (name, f) (generated_tests (cql3_types _now _exp _uuid1)) ->
        tm_column f ≠ "decimal_type" /\ tm_column f ≠ "inet_type")
  /\ tm_column test_none ≠ "decimal_type"
  /\ tm_column test_none ≠ "inet_type".
Proof.
  repeat apply conj; try reflexivity; try discriminate.
  - intros codecs T v [-> | ->]; split; reflexivity.
  - intros codecs Db transport meta req c name T v HT.
    apply execute_unsupported. now destruct HT as [-> | ->].
  - exact unsupported_iff.
  - exact generated_tests_columns.
Qed.

(** ** The client of the spec: the null marker *)

Section NullFacts.
Variable codecs : wire_type -> codec.
Variable Db : Type.
Variable transport : frame -> Db -> response * Db.

Lemma marshal_null (T : wire_type) : marshal codecs T VNone = inr WNull.
Proof. reflexivity. Qed.

Lemma unmarshal_null (T : wire_type) : unmarshal codecs T WNull = inr VNone.
Proof. reflexivity. Qed.

Lemma decode_row_lookup (cols : list (string * wire_type * wire))
    (r : gmap string pyvalue) (c : string) (T : wire_type) (w : wire) :
  NoDup (map (fun x => fst (fst x)) cols) ->
  decode_row codecs cols = inr r ->
  In (c, T, w) cols ->
  exists v : pyvalue, unmarshal codecs T w = inr v /\ r !! c = Some v.
Proof.
  revert r. induction cols as [| [[c' T'] w'] rest IH]; intros r Hnd Hdec Hin.
  - destruct Hin.
  - cbn in Hdec, Hnd. apply NoDup_cons in Hnd as [Hfresh Hnd].
    destruct (unmarshal codecs T' w') as [e | v'] eqn:Hv'; [discriminate |].
    destruct (decode_row codecs rest) as [e | r'] eqn:Hr'; [discriminate |].
    injection Hdec as <-.
    destruct Hin as [[= -> -> ->] | Hin].
    + exists v'. split; [exact Hv' | apply lookup_insert_eq].
    + destruct (IH r' Hnd eq_refl Hin) as (v & Hv & Hl).
      exists v. split; [exact Hv |].
      rewrite lookup_insert_ne; [exact Hl |].
      intros ->. apply Hfresh. apply list_elem_of_In.
      apply (List.in_map (fun x => fst (fst x)) _ _ Hin).
Qed.





Lemma execute_active (meta : gmap string wire_type) (req : request)
    (c : connection Db) (args : gmap string wire)
    (rows : list (list (string * wire_type * wire)))
    (rs : list (gmap string pyvalue)) (db : Db) :
  lifecycle_of Db c = Active ->
  bind_params codecs meta (params req) = inr args ->
  transport (mk_frame (query req) args (consistency req)) (database Db c)
    = (Rows rows, db) ->
  decode_rows codecs rows = inr rs ->
  execute codecs Db transport meta req c
  = (Success rs,
     mk_connection Db Active db
       (sent Db c ++ [mk_frame (query req) args (consistency req)])
       (waiting Db c)).
Proof.
  intros Hl Hb Ht Hd. unfold execute, submit. now rewrite Hl, Hb, Ht, Hd.
Qed.
End NullFacts.



Lemma decimal_and_inet_fail_before_any_io_witness :
  let c := mk_connection (list (wire * wire)) Active [] [] [] in
  let req :=
    mk_request "INSERT INTO test (test_key, decimal_type) values (:key, :val);"
               (<["val" := VFloat 1.513623]> (<["key" := VInt 42]> ∅)) ALL in
  let run :=
    execute sample_codecs (list (wire * wire))
            (one_column_db "decimal_type" TDecimal)
            (column_metadata "decimal_type" TDecimal (query req)) req c in
  snd run = c /\ fst run = Failure EncodeError.
Proof.
  cbv zeta.
  pose proof (proj1 (proj2 (proj2 decimal_and_inet_fail_before_any_io))
                sample_codecs (list (wire * wire))
                (one_column_db "decimal_type" TDecimal)
                (column_metadata "decimal_type" TDecimal
                   "INSERT INTO test (test_key, decimal_type) values (:key, :val);")
                (mk_request
                   "INSERT INTO test (test_key, decimal_type) values (:key, :val);"
                   (<["val" := VFloat 1.513623]> (<["key" := VInt 42]> ∅)) ALL)
                (mk_connection (list (wire * wire)) Active [] [] [])
                "val" TDecimal (VFloat 1.513623)) as H.
  destruct H as [Hs Hf];
    [ left; reflexivity | reflexivity | reflexivity | discriminate | ].
  split; [exact Hs | apply Hf; discriminate].
Defined.

(** ** The client of the spec: its integer rule and its lifecycle *)

Lemma be_value_app (acc : Z) (a b : string) :
  be_value acc (a +:+ b) = be_value (be_value acc a) b.
Proof.
  revert acc. induction a as [| c a IH]; intros acc; [reflexivity |].
  change (be_value (acc * 256 + code_of_ascii c) (a +:+ b)
          = be_value (be_value (acc * 256 + code_of_ascii c) a) b).
  apply IH.
Qed.

Lemma length_append (a b : string) :
  String.length (a +:+ b) = (String.length a + String.length b)%nat.
Proof.
  induction a as [| c a IH]; [reflexivity |].
  change (S (String.length (a +:+ b)) = S (String.length a + String.length b)).
  now rewrite IH.
Qed.

Lemma length_be_bytes (width : nat) (z : Z) :
  String.length (be_bytes width z) = width.
Proof.
  revert z. induction width as [| w IH]; intros z; [reflexivity |].
  cbn [be_bytes]. rewrite length_append, IH. cbn. lia.
Qed.

Lemma be_value_be_bytes (width : nat) (acc u : Z) :
  0 <= u < 256 ^ Z.of_nat width ->
  be_value acc (be_bytes width u) = acc * 256 ^ Z.of_nat width + u.
Proof.
  revert acc u. induction width as [| w IH]; intros acc u Hu.
  - cbn in *. lia.
  - rewrite Nat2Z.inj_succ, Z.pow_succ_r in * by lia.
    cbn [be_bytes]. rewrite be_value_app.
    rewrite IH by (split; [apply Z.div_pos; lia | apply Z.div_lt_upper_bound; lia]).
    cbn [be_value]. unfold code_of_ascii.
    pose proof (Z.mod_pos_bound u 256 ltac:(lia)) as Hm.
    rewrite nat_ascii_embedding by lia.
    rewrite Z2Nat.id by lia.
    pose proof (Z.div_mod u 256 ltac:(lia)). lia.
Qed.

(** The integer rule round-trips every value of the declared width. *)
Lemma int_codec_round_trip (width : nat) (z : Z) :
  (0 < width)%nat ->
  - 2 ^ (8 * Z.of_nat width - 1) <= z < 2 ^ (8 * Z.of_nat width - 1) ->
  exists b : string,
    encode_with (int_codec width) (VInt z) = Some b
    /\ String.length b = width
    /\ decode_with (int_codec width) b = Some (VInt z).
Proof.
  intros Hw Hz. set (half := 2 ^ (8 * Z.of_nat width - 1)) in *.
  assert (Hhalf : 0 < half) by (apply Z.pow_pos_nonneg; lia).
  assert (Hfull : 256 ^ Z.of_nat width = 2 * half).
  { unfold half. change 256 with (2 ^ 8). rewrite <- Z.pow_mul_r by lia.
    replace (8 * Z.of_nat width) with (Z.succ (8 * Z.of_nat width - 1)) at 1 by lia.
    apply Z.pow_succ_r. lia. }
  exists (be_bytes width (z mod (2 * half))).
  cbn [int_codec encode_with decode_with]. fold half.
  assert (Hin : (- half <=? z) && (z <? half) = true).
  { apply andb_true_iff. split; [apply Z.leb_le | apply Z.ltb_lt]; lia. }
  rewrite Hin, length_be_bytes, Nat.eqb_refl.
  repeat split. cbv zeta.
  pose proof (Z.mod_pos_bound z (2 * half) ltac:(lia)) as Hm.
  rewrite be_value_be_bytes by (rewrite Hfull; exact Hm).
  rewrite Z.mul_0_l, Z.add_0_l. do 2 f_equal.
  destruct (Z.ltb_spec (z mod (2 * half)) half) as [Hlt | Hge].
  - destruct (Z_lt_le_dec z 0) as [Hneg | Hpos].
    + rewrite <- (Z.mod_add z 1 (2 * half)) in Hlt by lia.
      rewrite Z.mod_small in Hlt by lia. lia.
    + apply Z.mod_small. lia.
  - destruct (Z_lt_le_dec z 0) as [Hneg | Hpos].
    + rewrite <- (Z.mod_add z 1 (2 * half)) by lia.
      rewrite Z.mod_small by lia. lia.
    + rewrite Z.mod_small in Hge by lia. lia.
Qed.

Section Lifecycle.
Variable codecs : wire_type -> codec.
Variable Db : Type.
Variable transport : frame -> Db -> response * Db.

Lemma pause_idempotent (c : connection Db) :
  pause Db (pause Db c) = pause Db c.
Proof. unfold pause. now destruct (lifecycle_of Db c) eqn:H; cbn; rewrite ?H. Qed.

Lemma submit_lifecycle (fr : frame) (c : connection Db) :
  lifecycle_of Db c = Active ->
  lifecycle_of Db (snd (submit codecs Db transport fr c)) = Active
  \/ lifecycle_of Db (snd (submit codecs Db transport fr c)) = Closed.
Proof.
  intros H. unfold submit. destruct (transport fr (database Db c)) as [resp db].
  destruct resp as [rows | e].
  - destruct (decode_rows codecs rows); cbn; auto.
  - destruct e; cbn; auto.
Qed.

Lemma flush_lifecycle (frames : list frame) (c : connection Db) :
  lifecycle_of Db c = Active \/ lifecycle_of Db c = Closed ->
  let c' := fold_left
              (fun c' fr =>
                 match lifecycle_of Db c' with
                 | Active => snd (submit codecs Db transport fr c')
                 | _ => c'
                 end) frames c in
  lifecycle_of Db c' = Active \/ lifecycle_of Db c' = Closed.
Proof.
  revert c. induction frames as [| fr rest IH]; intros c H; cbn; [exact H |].
  apply IH. destruct H as [H | H]; rewrite H; [| now right].
  now apply submit_lifecycle.
Qed.

Lemma resume_idempotent (c : connection Db) :
  resume codecs Db transport (resume codecs Db transport c)
  = resume codecs Db transport c.
Proof.
  unfold resume at 2 3. destruct (lifecycle_of Db c) eqn:H;
    try (unfold resume; now rewrite H).
  pose proof (flush_lifecycle (waiting Db c)
                (mk_connection Db Active (database Db c) (sent Db c) [])
                (or_introl eq_refl)) as Hf.
  cbv zeta in Hf. unfold resume. now destruct Hf as [-> | ->].
Qed.

Lemma execute_closed (meta : gmap string wire_type) (req : request)
    (c : connection Db) :
  lifecycle_of Db c = Closed ->
  execute codecs Db transport meta req c = (Failure ConnectionClosed, c).
Proof. intros H. unfold execute. now rewrite H. Qed.

Lemma execute_paused (meta : gmap string wire_type) (req : request)
    (c : connection Db) (args : gmap string wire) :
  lifecycle_of Db c = Paused ->
  bind_params codecs meta (params req) = inr args ->
  execute codecs Db transport meta req c
  = (Pending,
     mk_connection Db Paused (database Db c) (sent Db c)
       (waiting Db c ++ [mk_frame (query req) args (consistency req)])).
Proof. intros H Hb. unfold execute. now rewrite H, Hb. Qed.
End Lifecycle.

(** The int scenario, run: against the sample registry and the one-column
    database the test of [int] passes for the key 42, and the two frames it
    sends are at ALL. *)
Example int_scenario_on_the_sample_client :
  let run :=
    run_body
      (fun req =>
         execute sample_codecs (list (wire * wire))
                 (one_column_db "int_type" TInt)
                 (column_metadata "int_type" TInt (query req)) req)
      (mk_test_method "test" "int_type" (VInt 5) (VInt 5)) (VInt 42)
      (mk_connection (list (wire * wire)) Active [] [] []) in
  fst run = Passed
  /\ map frame_consistency (sent (list (wire * wire)) (snd run)) = [ALL; ALL]
  /\ map frame_query (sent (list (wire * wire)) (snd run))
     = [ "INSERT INTO test (test_key, int_type) values (:key, :val);";
         "SELECT int_type FROM test WHERE test_key=:key;" ].
Proof. vm_compute. repeat split. Qed.
(** ** Short names *)

Lemma short_name_no_bracket (s : string) : count_char "<" (short_name s) = O.
Proof.
  induction s as [| c s IH]; [reflexivity |]. cbn [short_name].
  destruct (Ascii.eqb c "<") eqn:Hc; [reflexivity |].
  cbn [count_char]. now rewrite Hc.
Qed.

Lemma short_name_plain (s : string) :
  count_char "<" s = O -> short_name s = s.
Proof.
  induction s as [| c s IH]; [reflexivity |]. cbn [count_char short_name].
  destruct (Ascii.eqb c "<"); [discriminate |]. intros H. now rewrite IH.
Qed.

Lemma short_name_cut (a b : string) :
  count_char "<" a = O -> short_name (a +:+ String "<" b) = a.
Proof.
  induction a as [| c a IH]; [reflexivity |]. cbn [count_char].
  change (String c a +:+ String "<" b) with (String c (a +:+ String "<" b)).
  cbn [short_name]. destruct (Ascii.eqb c "<"); [discriminate |].
  intros H. now rewrite IH.
Qed.

Lemma short_name_split (s : string) :
  s = short_name s \/ exists rest : string, s = short_name s +:+ String "<" rest.
Proof.
  induction s as [| c s IH]; [now left |]. cbn [short_name].
  destruct (Ascii.eqb_spec c "<") as [-> | Hc].
  - right. now exists s.
  - destruct IH as [IH | [rest IH]].
    + left. now rewrite <- IH.
    + right. exists rest.
      change (String c (short_name s) +:+ String "<" rest)
        with (String c (short_name s +:+ String "<" rest)).
      now rewrite <- IH.
Qed.

(** X1: [short_name] keeps the text before the first [<].  Its result holds
    no [<]; the name is its result, alone or followed by [<] and the rest; a
    name without [<] is its own short name, so [short_name] applied twice is
    [short_name]; and whatever follows the first [<] is ignored. *)
Theorem short_name_is_the_text_before_the_bracket :
  (forall s : string, count_char "<" (short_name s) = O)
  /\ (forall s : string,
        s = short_name s
        \/ exists rest : string, s = short_name s +:+ String "<" rest)
  /\ (forall s : string, count_char "<" s = O -> short_name s = s)
  /\ (forall s : string, short_name (short_name s) = short_name s)
  /\ (forall a b : string,
        count_char "<" a = O -> short_name (a +:+ String "<" b) = a).
Proof.
  repeat apply conj.
  - exact short_name_no_bracket.
  - exact short_name_split.
  - exact short_name_plain.
  - intros s. apply short_name_plain, short_name_no_bracket.
  - exact short_name_cut.
Qed.

Lemma short_name_is_the_text_before_the_bracket_witness :
  short_name "map<int, text>" = "map" /\ short_name "varint" = "varint".
Proof.
  split.
  - exact (proj2 (proj2 (proj2 (proj2 short_name_is_the_text_before_the_bracket)))
             "map" "int, text>" eq_refl).
  - exact (proj1 (proj2 (proj2 short_name_is_the_text_before_the_bracket))
             "varint" eq_refl).
Defined.

(** ** Splitting the endpoint *)

Lemma split_length (sep : ascii) (s : string) :
  length (split sep s) = S (count_char sep s).
Proof.
  induction s as [| c s IH]; [reflexivity |]. cbn [split count_char].
  destruct (Ascii.eqb c sep); cbn [length]; [now rewrite IH |].
  destruct (split sep s) as [| part parts]; [discriminate IH | exact IH].
Qed.

Lemma split_plain (sep : ascii) (s : string) :
  count_char sep s = O -> split sep s = [s].
Proof.
  induction s as [| c s IH]; [reflexivity |]. cbn [split count_char].
  destruct (Ascii.eqb c sep); [discriminate |]. intros H. now rewrite IH.
Qed.

Lemma split_two (sep : ascii) (a b : string) :
  count_char sep a = O -> count_char sep b = O ->
  split sep (a +:+ String sep b) = [a; b].
Proof.
  intros Ha Hb. induction a as [| c a IH].
  - change (EmptyString +:+ String sep b) with (String sep b).
    cbn [split]. rewrite Ascii.eqb_refl. now rewrite (split_plain sep b Hb).
  - change (String c a +:+ String sep b) with (String c (a +:+ String sep b)).
    cbn [split count_char] in *.
    destruct (Ascii.eqb c sep); [discriminate |]. now rewrite (IH Ha).
Qed.

Lemma split_two_inv (sep : ascii) (s a b : string) :
  split sep s = [a; b] ->
  s = a +:+ String sep b /\ count_char sep a = O /\ count_char sep b = O.
Proof.
  revert a. induction s as [| c s IH]; intros a; [discriminate |].
  cbn [split]. destruct (Ascii.eqb_spec c sep) as [-> | Hc].
  - intros [= <- Hs]. pose proof (split_length sep s) as Hl.
    rewrite Hs in Hl. cbn in Hl. injection Hl as Hl.
    pose proof (split_plain sep s (eq_sym Hl)) as Hp. rewrite Hp in Hs.
    injection Hs as <-. repeat split. now symmetry.
  - destruct (split sep s) as [| part parts] eqn:Hs; [discriminate |].
    intros [= <- ->]. destruct (IH part eq_refl) as (-> & Ha & Hb).
    repeat split; [| exact Hb]. cbn [count_char].
    apply Ascii.eqb_neq in Hc. now rewrite Hc.
Qed.

(** ** Setting the database up *)

Lemma set_up_cassandra_unfold (p : platform) (w : world) (keys : list string)
    (host port ks : string) :
  count_char ":" host = O -> count_char ":" port = O ->
  set_up_cassandra p w keys (host +:+ String ":" port) ks =
  if connects w host port then
    let (log, ok) := cursor_execute_all w (set_up_statements keys ks) in
    let log := Connect host port
               :: CursorExecute ("DROP KEYSPACE " +:+ ks +:+ ";") :: log in
    if ok then
      match clientFromString p ("tcp:" +:+ host +:+ ":" +:+ port) with
      | Returns ep =>
          ((log ++ [CursorClose; NewClient ep ks])%list,
           Returns (mk_client ep ks))
      | Raises e => ((log ++ [CursorClose])%list, Raises e)
      end
    else (log, Raises DatabaseError)
  else ([Connect host port], Raises DatabaseError).
Proof.
  intros Hh Hp. unfold set_up_cassandra.
  now rewrite (split_two ":" host port Hh Hp).
Qed.

Lemma cursor_execute_all_accepted (w : world) (statements : list string) :
  Forall (fun s => accepts w s = true) statements ->
  cursor_execute_all w statements = (map CursorExecute statements, true).
Proof.
  induction 1 as [| s rest Hs _ IH]; [reflexivity |].
  cbn [cursor_execute_all map]. now rewrite Hs, IH.
Qed.

Lemma cursor_execute_all_refused (w : world) (statements : list string) :
  snd (cursor_execute_all w statements) = false ->
  exists (done rest : list string) (s : string),
    statements = (done ++ s :: rest)%list
    /\ Forall (fun x => accepts w x = true) done
    /\ accepts w s = false
    /\ fst (cursor_execute_all w statements)
       = map CursorExecute (done ++ [s])%list.
Proof.
  induction statements as [| s rest IH]; cbn [cursor_execute_all];
    [discriminate |].
  destruct (accepts w s) eqn:Hs.
  - destruct (cursor_execute_all w rest) as [log ok]. cbn [fst snd] in *.
    intros Hok. destruct (IH Hok) as (done & rest' & s' & -> & Hd & Hs' & Hlog).
    exists (s :: done), rest', s'. repeat split; [| exact Hs' |].
    + now constructor.
    + cbn. now rewrite Hlog.
  - intros _. exists [], rest, s. repeat split; [constructor | exact Hs].
Qed.

(** X2: an endpoint that is not [host:port] stops [set_up_cassandra] before
    it reaches the network.  The call causes no event exactly when the
    endpoint does not hold exactly one colon, and it then raises
    [ValueError]; with exactly one colon the endpoint is [host:port] and the
    first thing the call does is to connect to that host and port. *)
Theorem set_up_cassandra_needs_host_and_port (p : platform) (w : world)
    (keys : list string) (endpoint ks : string) :
  (count_char ":" endpoint ≠ 1%nat ->
   set_up_cassandra p w keys endpoint ks = ([], Raises ValueError))
  /\ (count_char ":" endpoint = 1%nat ->
      exists (host port : string) (rest : list event),
        endpoint = host +:+ String ":" port
        /\ count_char ":" host = O /\ count_char ":" port = O
        /\ fst (set_up_cassandra p w keys endpoint ks)
           = Connect host port :: rest).
Proof.
  pose proof (split_length ":" endpoint) as Hl. split.
  - intros Hn. unfold set_up_cassandra.
    destruct (split ":" endpoint) as [| a [| b [| c parts]]]; try reflexivity.
    cbn in Hl. lia.
  - intros H1. rewrite H1 in Hl.
    destruct (split ":" endpoint) as [| host [| port [| c parts]]] eqn:Hs;
      try discriminate Hl.
    destruct (split_two_inv ":" endpoint host port Hs) as (He & Hh & Hp).
    clear Hs Hl H1. subst endpoint. exists host, port.
    rewrite (set_up_cassandra_unfold p w keys host port ks Hh Hp).
    destruct (connects w host port); [| eexists; repeat split; eauto].
    destruct (cursor_execute_all w _) as [log ok].
    destruct ok; [destruct (clientFromString p _) |];
      eexists; repeat split; eauto.
Qed.

Lemma set_up_cassandra_needs_host_and_port_witness :
  set_up_cassandra source_order (mk_world (fun _ _ => true) (fun _ => true))
    ["int"] "localhost" "test_marshalling" = ([], Raises ValueError).
Proof.
  apply (proj1 (set_up_cassandra_needs_host_and_port _ _ _ _ _)). discriminate.
Defined.

(** X3: what [set_up_cassandra] does once the database has taken the
    set-up.  For an endpoint [host:port] that can be reached, when the
    database accepts the four statements that follow the [DROP KEYSPACE],
    the call connects, drops the keyspace, creates it, uses it, creates the
    tables [test] and [test_counter] and closes the cursor; then it makes the
    endpoint [tcp:host:port].  When [clientFromString] returns it, the call
    builds the client on it for that keyspace and returns that client: these
    eight events and no other.  When [clientFromString] raises, as it does
    for a port that is not a number, the call raises the same exception
    after the seven events, the cursor closed and no client built. *)
Theorem set_up_cassandra_succeeds (p : platform) (w : world)
    (keys : list string) (host port ks : string) :
  count_char ":" host = O ->
  count_char ":" port = O ->
  connects w host port = true ->
  Forall (fun s => accepts w s = true) (set_up_statements keys ks) ->
  let sent :=
    [ Connect host port;
      CursorExecute ("DROP KEYSPACE " +:+ ks +:+ ";");
      CursorExecute ("CREATE KEYSPACE " +:+ ks +:+ " WITH replication = "
                     +:+ "{'class':'SimpleStrategy', 'replication_factor':1}");
      CursorExecute ("USE " +:+ ks +:+ ";");
      CursorExecute (create_table_test keys);
      CursorExecute create_table_test_counter;
      CursorClose ] in
  (forall ep : string,
     clientFromString p ("tcp:" +:+ host +:+ String ":" port) = Returns ep ->
     set_up_cassandra p w keys (host +:+ String ":" port) ks
     = ((sent ++ [NewClient ep ks])%list, Returns (mk_client ep ks)))
  /\ (forall x : exn,
        clientFromString p ("tcp:" +:+ host +:+ String ":" port) = Raises x ->
        set_up_cassandra p w keys (host +:+ String ":" port) ks
        = (sent, Raises x)).
Proof.
  intros Hh Hp Hc Hall. cbv zeta.
  rewrite (set_up_cassandra_unfold p w keys host port ks Hh Hp), Hc.
  rewrite (cursor_execute_all_accepted w _ Hall).
  change ("tcp:" +:+ host +:+ ":" +:+ port)
    with ("tcp:" +:+ host +:+ String ":" port).
  split; [intros ep -> | intros x ->]; reflexivity.
Qed.

Lemma set_up_cassandra_succeeds_witness :
  set_up_cassandra source_order (mk_world (fun _ _ => true) (fun _ => true))
    ["int"] "localhost:9160" "test_marshalling"
  = ([ Connect "localhost" "9160";
       CursorExecute "DROP KEYSPACE test_marshalling;";
       CursorExecute
         "CREATE KEYSPACE test_marshalling WITH replication = {'class':'SimpleStrategy', 'replication_factor':1}";
       CursorExecute "USE test_marshalling;";
       CursorExecute (create_table_test ["int"]);
       CursorExecute create_table_test_counter;
       CursorClose;
       NewClient "tcp:localhost:9160" "test_marshalling" ],
     Returns (mk_client "tcp:localhost:9160" "test_marshalling")).
Proof.
  refine (proj1 (set_up_cassandra_succeeds source_order
                   (mk_world (fun _ _ => true) (fun _ => true)) ["int"]
                   "localhost" "9160" "test_marshalling"
                   eq_refl eq_refl eq_refl _)
            "tcp:localhost:9160" eq_refl).
  repeat constructor.
Defined.

Lemma cursor_execute_all_stops (w : world) (done rest : list string) (s : string) :
  Forall (fun x => accepts w x = true) done ->
  accepts w s = false ->
  cursor_execute_all w (done ++ s :: rest)
  = (map CursorExecute (done ++ [s]), false).
Proof.
  intros Hd Hs. induction Hd as [| x done Hx _ IH]; cbn [app cursor_execute_all map].
  - now rewrite Hs.
  - now rewrite Hx, IH.
Qed.

Lemma cursor_execute_all_agree (w w' : world) (statements : list string) :
  Forall (fun s => accepts w s = accepts w' s) statements ->
  cursor_execute_all w statements = cursor_execute_all w' statements.
Proof.
  induction 1 as [| s rest Hs _ IH]; [reflexivity |].
  cbn [cursor_execute_all]. now rewrite Hs, IH.
Qed.

Lemma first_char_differs (a b : ascii) (x y : string) :
  a ≠ b -> String a x ≠ String b y.
Proof. intros Hab [= H _]. now apply Hab. Qed.

Lemma set_up_statements_are_not_the_drop (keys : list string) (ks : string) :
  Forall (fun s => s ≠ "DROP KEYSPACE " +:+ ks +:+ ";")
         (set_up_statements keys ks).
Proof.
  unfold set_up_statements, create_table_test, create_table_test_counter.
  repeat constructor; apply first_char_differs; discriminate.
Qed.

(** X4: a refused [DROP KEYSPACE] is swallowed.  Two databases that can be
    reached alike and that accept the same statements, except perhaps the
    [DROP KEYSPACE] of this keyspace, make [set_up_cassandra] do the same
    thing and return the same result. *)
Theorem set_up_cassandra_ignores_the_drop (p : platform) (w w' : world)
    (keys : list string) (endpoint ks : string) :
  (forall host port : string, connects w host port = connects w' host port) ->
  (forall s : string,
     s ≠ "DROP KEYSPACE " +:+ ks +:+ ";" -> accepts w s = accepts w' s) ->
  set_up_cassandra p w keys endpoint ks
  = set_up_cassandra p w' keys endpoint ks.
Proof.
  intros Hc Ha. unfold set_up_cassandra.
  destruct (split ":" endpoint) as [| host [| port [| x parts]]]; try reflexivity.
  rewrite Hc.
  change (cursor_execute_all w _)
    with (cursor_execute_all w (set_up_statements keys ks)).
  change (cursor_execute_all w' _)
    with (cursor_execute_all w' (set_up_statements keys ks)).
  rewrite (cursor_execute_all_agree w w' (set_up_statements keys ks));
    [reflexivity |].
  eapply Forall_impl; [apply set_up_statements_are_not_the_drop |].
  intros s Hs. now apply Ha.
Qed.

Lemma set_up_cassandra_ignores_the_drop_witness :
  set_up_cassandra source_order
    (mk_world (fun _ _ => true)
       (fun s => negb (String.eqb s "DROP KEYSPACE test_marshalling;")))
    ["int"] "localhost:9160" "test_marshalling"
  = set_up_cassandra source_order
      (mk_world (fun _ _ => true) (fun _ => true))
      ["int"] "localhost:9160" "test_marshalling".
Proof.
  apply set_up_cassandra_ignores_the_drop; [reflexivity |].
  intros s Hs. cbn [accepts]. apply negb_true_iff. now apply String.eqb_neq.
Defined.

(** X5: a failure ends [set_up_cassandra] where it happens.  When the
    endpoint [host:port] cannot be reached the call raises after the one
    attempt to connect.  When the database refuses one of the statements
    that follow the [DROP KEYSPACE], the call raises right after that
    statement: the statements after it are never sent, the cursor is not
    closed, and no client is built. *)
Theorem set_up_cassandra_stops_at_the_first_failure (p : platform)
    (w : world) (keys : list string) (host port ks : string) :
  count_char ":" host = O ->
  count_char ":" port = O ->
  (connects w host port = false ->
   set_up_cassandra p w keys (host +:+ String ":" port) ks
   = ([Connect host port], Raises DatabaseError))
  /\ (forall (done rest : list string) (s : string),
        connects w host port = true ->
        set_up_statements keys ks = (done ++ s :: rest)%list ->
        Forall (fun x => accepts w x = true) done ->
        accepts w s = false ->
        set_up_cassandra p w keys (host +:+ String ":" port) ks
        = (Connect host port
           :: CursorExecute ("DROP KEYSPACE " +:+ ks +:+ ";")
           :: map CursorExecute (done ++ [s]),
           Raises DatabaseError)
        /\ forallb (fun e => negb (is_cursor_close e) && negb (is_new_client e))
             (fst (set_up_cassandra p w keys (host +:+ String ":" port) ks))
           = true).
Proof.
  intros Hh Hp. split.
  - intros Hc.
    now rewrite (set_up_cassandra_unfold p w keys host port ks Hh Hp), Hc.
  - intros done rest s Hc Hst Hd Hs.
    rewrite (set_up_cassandra_unfold p w keys host port ks Hh Hp), Hc, Hst.
    rewrite (cursor_execute_all_stops w done rest s Hd Hs). split; [reflexivity |].
    cbn [fst forallb is_cursor_close is_new_client negb andb].
    induction (done ++ [s])%list as [| x l IH]; [reflexivity | exact IH].
Qed.

Lemma set_up_cassandra_stops_at_the_first_failure_witness :
  set_up_cassandra source_order
    (mk_world (fun _ _ => true)
       (fun s => negb (String.eqb s "USE test_marshalling;")))
    ["int"] "localhost:9160" "test_marshalling"
  = ([ Connect "localhost" "9160";
       CursorExecute "DROP KEYSPACE test_marshalling;";
       CursorExecute
         "CREATE KEYSPACE test_marshalling WITH replication = {'class':'SimpleStrategy', 'replication_factor':1}";
       CursorExecute "USE test_marshalling;" ],
     Raises DatabaseError).
Proof.
  refine (proj1 (proj2 (set_up_cassandra_stops_at_the_first_failure
            source_order
            (mk_world (fun _ _ => true)
               (fun s => negb (String.eqb s "USE test_marshalling;")))
            ["int"] "localhost" "9160" "test_marshalling" eq_refl eq_refl)
            [ "CREATE KEYSPACE test_marshalling WITH replication = {'class':'SimpleStrategy', 'replication_factor':1}" ]
            [ create_table_test ["int"]; create_table_test_counter ]
            "USE test_marshalling;" eq_refl eq_refl _ eq_refl)).
  repeat constructor.
Defined.

(** ** The two tables, as the set-up creates them *)

Lemma filter_permutation {A : Type} (f : A -> bool) (l l' : list A) :
  Permutation l l' -> Permutation (List.filter f l) (List.filter f l').
Proof.
  induction 1 as [| x l l' _ IH | x y l | l l' l'' _ IH1 _ IH2]; cbn [List.filter].
  - constructor.
  - destruct (f x); [now constructor | exact IH].
  - destruct (f x), (f y); try reflexivity. apply perm_swap.
  - now transitivity (List.filter f l').
Qed.

Lemma keys_permutation (p : platform) (types : list (string * entry)) :
  Permutation (map fst (iteritems p types)) (map fst types).
Proof. apply Permutation_map, iteritems_permutation. Qed.

Lemma statements_sent_app (a b : list event) :
  statements_sent (a ++ b) = (statements_sent a ++ statements_sent b)%list.
Proof. unfold statements_sent. apply flat_map_app. Qed.

Lemma set_up_cassandra_sends (p : platform) (w : world) (keys : list string)
    (host port ks : string) :
  count_char ":" host = O -> count_char ":" port = O ->
  connects w host port = true ->
  Forall (fun s => accepts w s = true) (set_up_statements keys ks) ->
  statements_sent (fst (set_up_cassandra p w keys (host +:+ String ":" port) ks))
  = ("DROP KEYSPACE " +:+ ks +:+ ";") :: set_up_statements keys ks.
Proof.
  intros Hh Hp Hc Hall.
  rewrite (set_up_cassandra_unfold p w keys host port ks Hh Hp), Hc.
  rewrite (cursor_execute_all_accepted w _ Hall).
  destruct (clientFromString p _); reflexivity.
Qed.

(** C10: counters live in a table of their own.  Given the keys of the type
    table in the order the dict has them, a set-up that reaches the database
    and has its statements accepted sends, after the keyspace is dropped,
    created and used, the [CREATE TABLE] of [test] and then that of
    [test_counter], and nothing after them.  The first creates the key and
    one column for every type of the table other than [counter] (nineteen
    definitions, the columns of distinct names, none of them
    [counter_type]); the second creates the key and the counter column
    alone.  A generated test targets [test_counter] exactly when its type is
    [counter], which is exactly when its column is [counter_type], and
    [test] otherwise, and its select reads its column from that table;
    [test_none] targets [test]. *)
Theorem counter_isolation (p : platform) (_now _exp : datetime) (_uuid1 : Z) :
  let types := cql3_types _now _exp _uuid1 in
  let keys := map fst (iteritems p types) in
  (forall (w : world) (host port ks : string),
     count_char ":" host = O -> count_char ":" port = O ->
     connects w host port = true ->
     Forall (fun s => accepts w s = true) (set_up_statements keys ks) ->
     statements_sent
       (fst (set_up_cassandra p w keys (host +:+ String ":" port) ks))
     = [ "DROP KEYSPACE " +:+ ks +:+ ";";
         "CREATE KEYSPACE " +:+ ks +:+ " WITH replication = "
         +:+ "{'class':'SimpleStrategy', 'replication_factor':1}";
         "USE " +:+ ks +:+ ";";
         "CREATE TABLE test (" +:+ join ", " (test_column_defs keys) +:+ ");";
         "CREATE TABLE test_counter ("
         +:+ join ", " ["test_key int PRIMARY KEY"; "counter_type counter"]
         +:+ ");" ])
  /\ (forall k : string, In k (map fst types) -> k ≠ "counter" ->
        In (column_of k +:+ " " +:+ k) (test_column_defs keys))
  /\ (forall d : string, In d (test_column_defs keys) ->
        d = "test_key timestamp PRIMARY KEY"
        \/ exists k : string,
             In k (map fst types) /\ k ≠ "counter"
             /\ d = column_of k +:+ " " +:+ k)
  /\ length (test_column_defs keys) = 19%nat
  /\ NoDup (map column_of keys)
  /\ (forall d : string, In d (test_column_defs keys) ->
        String.prefix "counter_type " d = false)
  /\ (forall (T : string) (data : entry), In (T, data) types ->
        let f := snd (make_test_method T data) in
        tm_table f = (if String.eqb T "counter" then "test_counter" else "test")
        /\ (tm_table f = "test_counter" <-> T = "counter")
        /\ (tm_column f = "counter_type" <-> T = "counter")
        /\ forall primary_key : pyvalue,
             query (execute_select (tm_table f) (tm_column f) primary_key)
             = "SELECT " +:+ tm_column f +:+ " FROM "
               +:+ (if String.eqb T "counter" then "test_counter" else "test")
               +:+ " WHERE test_key=:key;")
  /\ tm_table test_none = "test"
  /\ tm_column test_none ≠ "counter_type".
Proof.
  cbv zeta.
  pose proof (keys_permutation p (cql3_types _now _exp _uuid1)) as Hperm.
  set (keys := map fst (iteritems p (cql3_types _now _exp _uuid1))) in *.
  assert (Hin : forall d : string, In d (test_column_defs keys) ->
            d = "test_key timestamp PRIMARY KEY"
            \/ exists k : string,
                 In k (map fst (cql3_types _now _exp _uuid1)) /\ k ≠ "counter"
                 /\ d = column_of k +:+ " " +:+ k).
  { intros d Hd. apply test_column_inv in Hd as [Hd | (k & Hk & Hne & Hd)];
      [now left | right].
    exists k. repeat split; try assumption. exact (Permutation_in k Hperm Hk). }
  repeat apply conj.
  - intros w host port ks Hh Hp Hc Hall.
    exact (set_up_cassandra_sends p w keys host port ks Hh Hp Hc Hall).
  - intros k Hk Hne. apply test_has_column; [| exact Hne].
    exact (Permutation_in k (Permutation_sym Hperm) Hk).
  - exact Hin.
  - unfold test_column_defs. cbn [length]. rewrite length_map.
    rewrite (Permutation_length
               (filter_permutation (fun k => negb (String.eqb k "counter"))
                  _ _ Hperm)).
    reflexivity.
  - rewrite (Permutation_map column_of Hperm). apply columns_distinct.
  - intros d Hd. apply (test_has_no_counter _now _exp _uuid1).
    apply Hin in Hd as [-> | (k & Hk & Hne & ->)]; [left; reflexivity |].
    now apply test_has_column.
  - intros T data H.
    destruct (routing _now _exp _uuid1 T data H) as (Ht & Htc & Hcc).
    cbv zeta in Ht, Htc, Hcc |- *. repeat split; tauto.
  - reflexivity.
  - discriminate.
Qed.

Lemma counter_isolation_witness :
  statements_sent
    (fst (set_up_cassandra source_order
            (mk_world (fun _ _ => true) (fun _ => true))
            (map fst (cql3_types (mk_datetime 2020 1 1 0 0 0 123456)
                                 (mk_datetime 2020 1 1 0 0 0 123000) 7))
            "localhost:9160" "test_marshalling"))
  = [ "DROP KEYSPACE test_marshalling;";
      "CREATE KEYSPACE test_marshalling WITH replication = {'class':'SimpleStrategy', 'replication_factor':1}";
      "USE test_marshalling;";
      "CREATE TABLE test (test_key timestamp PRIMARY KEY, ascii_type ascii, bigint_type bigint, blob_type blob, boolean_type boolean, decimal_type decimal, double_type double, float_type float, inet_type inet, int_type int, list_type list<int>, map_type map<int, text>, set_type set<int>, text_type text, timestamp_type timestamp, uuid_type uuid, timeuuid_type timeuuid, varchar_type varchar, varint_type varint);";
      "CREATE TABLE test_counter (test_key int PRIMARY KEY, counter_type counter);" ].
Proof.
  refine (proj1 (counter_isolation source_order
                   (mk_datetime 2020 1 1 0 0 0 123456)
                   (mk_datetime 2020 1 1 0 0 0 123000) 7)
            (mk_world (fun _ _ => true) (fun _ => true))
            "localhost" "9160" "test_marshalling" eq_refl eq_refl eq_refl _).
  repeat constructor.
Defined.

(** ** The import with an endpoint *)

Lemma import_module_with_endpoint (p : platform) (w : world)
    (getenv : string -> option string)
    (_now exp : datetime) (_uuid1 : Z) (c : ascii) (e : string) :
  _now_expected _now = Returns exp ->
  getenv "CASSANDRA_ENDPOINT" = Some (String c e) ->
  import_module p w getenv _now _uuid1
  = (fst (set_up_cassandra p w
            (map fst (iteritems p (cql3_types _now exp _uuid1)))
            (String c e) "test_marshalling"),
     bind (snd (set_up_cassandra p w
                  (map fst (iteritems p (cql3_types _now exp _uuid1)))
                  (String c e) "test_marshalling"))
       (fun client =>
          Returns (mk_module (cql3_types _now exp _uuid1)
                     (Some (String c e)) (Some client)
                     (add_test_methods
                        (iteritems p (cql3_types _now exp _uuid1))
                        {[ "test_none" := test_none ]})
                     None))).
Proof.
  intros Hexp Henv. unfold import_module. rewrite Hexp, Henv.
  cbv zeta. destruct (set_up_cassandra _ _ _ _ _) as [log [cl | x]]; reflexivity.
Qed.

(** X6: with an endpoint, a set-up that fails makes the import fail.  When
    [CASSANDRA_ENDPOINT] is set and not empty, the exception
    [set_up_cassandra] raises leaves the import, so that no module and no
    test class come to exist: an endpoint that does not hold exactly one
    colon gives [ValueError] before anything reaches the network, and a
    database that cannot be reached gives the driver's error after the one
    attempt to connect. *)
Theorem import_fails_with_the_set_up (p : platform) (w : world)
    (getenv : string -> option string) (_now : datetime) (_uuid1 : Z)
    (endpoint : string) :
  datetime_ok _now = true ->
  getenv "CASSANDRA_ENDPOINT" = Some endpoint ->
  endpoint ≠ "" ->
  (count_char ":" endpoint ≠ 1%nat ->
   import_module p w getenv _now _uuid1 = ([], Raises ValueError))
  /\ (forall host port : string,
        endpoint = host +:+ String ":" port ->
        count_char ":" host = O -> count_char ":" port = O ->
        connects w host port = false ->
        import_module p w getenv _now _uuid1
        = ([Connect host port], Raises DatabaseError))
  /\ (forall (exp : datetime) (keys : list string) (x : exn),
        _now_expected _now = Returns exp ->
        keys = map fst (iteritems p (cql3_types _now exp _uuid1)) ->
        snd (set_up_cassandra p w keys endpoint "test_marshalling") = Raises x ->
        snd (import_module p w getenv _now _uuid1) = Raises x).
Proof.
  intros Hok Henv Hne. destruct endpoint as [| c e]; [now destruct Hne |].
  pose proof (now_expected_returns _now Hok) as Hexp.
  rewrite (import_module_with_endpoint p w getenv _now _ _uuid1 c e Hexp Henv).
  split; [| split].
  - intros Hc. unfold set_up_cassandra.
    pose proof (split_length ":" (String c e)) as Hl.
    destruct (split ":" (String c e)) as [| host [| port [| y parts]]];
      try reflexivity.
    cbn [length] in Hl. congruence.
  - intros host port He Hh Hp Hc. rewrite He.
    rewrite (set_up_cassandra_unfold p w _ host port _ Hh Hp), Hc. reflexivity.
  - intros exp keys x Hexp' -> Hx. cbn [snd].
    rewrite Hexp in Hexp'. injection Hexp' as <-. now rewrite Hx.
Qed.

Lemma import_fails_with_the_set_up_witness :
  import_module source_order (mk_world (fun _ _ => true) (fun _ => true))
    (fun _ => Some "localhost") (mk_datetime 2020 1 1 0 0 0 123456) 7
  = ([], Raises ValueError).
Proof.
  refine (proj1 (import_fails_with_the_set_up source_order
            (mk_world (fun _ _ => true) (fun _ => true))
            (fun _ => Some "localhost") (mk_datetime 2020 1 1 0 0 0 123456) 7
            "localhost" eq_refl eq_refl _) _); discriminate.
Defined.

(** X7: with an endpoint and a database that takes the set-up, the import
    builds the client and the tests run.  When [CASSANDRA_ENDPOINT] is
    [host:port], the database can be reached there and accepts the four
    statements that follow the [DROP KEYSPACE], the table [test] among them
    with its columns in the order in which the dict gives its keys, and
    [clientFromString] returns an endpoint for [tcp:host:port], the import
    does the eight steps of the set-up and no other, the module's [client]
    is the client on that endpoint for the keyspace [test_marshalling], the
    class carries no [skip], and every test then resumes the client, runs
    its body and pauses the client. *)
Theorem import_with_a_database (p : platform) (w : world)
    (getenv : string -> option string)
    (_now exp : datetime) (_uuid1 : Z) (host port ep : string) :
  _now_expected _now = Returns exp ->
  getenv "CASSANDRA_ENDPOINT" = Some (host +:+ String ":" port) ->
  count_char ":" host = O ->
  count_char ":" port = O ->
  connects w host port = true ->
  let keys := map fst (iteritems p (cql3_types _now exp _uuid1)) in
  Forall (fun s => accepts w s = true)
    (set_up_statements keys "test_marshalling") ->
  clientFromString p ("tcp:" +:+ host +:+ String ":" port) = Returns ep ->
  exists m : module_state,
    import_module p w getenv _now _uuid1
    = ([ Connect host port;
         CursorExecute "DROP KEYSPACE test_marshalling;";
         CursorExecute
           ("CREATE KEYSPACE test_marshalling WITH replication = "
            +:+ "{'class':'SimpleStrategy', 'replication_factor':1}");
         CursorExecute "USE test_marshalling;";
         CursorExecute (create_table_test keys);
         CursorExecute create_table_test_counter;
         CursorClose;
         NewClient ep "test_marshalling" ],
       Returns m)
    /\ m_endpoint m = Some (host +:+ String ":" port)
    /\ m_client m = Some (mk_client ep "test_marshalling")
    /\ m_skip m = None
    /\ forall (St : Type) (client_execute : request -> St -> reply * St)
         (client_resume client_pause : St -> St)
         (f : test_method) (millis : Z) (st : St),
         run_test client_execute client_resume client_pause (m_skip m) f millis st
         = (fst (run_body client_execute f (VInt millis) (client_resume st)),
            client_pause
              (snd (run_body client_execute f (VInt millis) (client_resume st)))).
Proof.
  intros Hexp Henv Hh Hp Hc keys Hall Hep.
  assert (Hne : exists c e, host +:+ String ":" port = String c e).
  { destruct host as [| c h];
      [exists ":"%char, port | exists c, (h +:+ String ":" port)];
      reflexivity. }
  destruct Hne as (c & e & He). rewrite He in Henv.
  rewrite (import_module_with_endpoint p w getenv _now exp _uuid1 c e Hexp Henv).
  rewrite <- He. fold keys.
  rewrite (set_up_cassandra_unfold p w _ host port _ Hh Hp), Hc.
  rewrite (cursor_execute_all_accepted w _ Hall).
  change ("tcp:" +:+ host +:+ ":" +:+ port)
    with ("tcp:" +:+ host +:+ String ":" port).
  rewrite Hep.
  eexists. split; [reflexivity |].
  cbn [m_endpoint m_client m_skip]. repeat split.
  intros St ce cr cp f millis st. unfold run_test.
  now destruct (run_body ce f (VInt millis) (cr st)).
Qed.

Lemma import_with_a_database_witness :
  exists m : module_state,
    snd (import_module source_order
           (mk_world (fun _ _ => true) (fun _ => true))
           (fun _ => Some "localhost:9160")
           (mk_datetime 2020 1 1 0 0 0 123456) 7) = Returns m
    /\ m_client m = Some (mk_client "tcp:localhost:9160" "test_marshalling")
    /\ m_skip m = None.
Proof.
  destruct (import_with_a_database source_order
              (mk_world (fun _ _ => true) (fun _ => true))
              (fun _ => Some "localhost:9160")
              (mk_datetime 2020 1 1 0 0 0 123456)
              (mk_datetime 2020 1 1 0 0 0 123000) 7
              "localhost" "9160" "tcp:localhost:9160"
              eq_refl eq_refl eq_refl eq_refl eq_refl
              ltac:(repeat constructor) eq_refl)
    as (m & Hm & _ & Hc & Hs & _).
  exists m. split; [exact (f_equal snd Hm) |]. split; assumption.
Defined.

(** ** What [execute_insert] raises and binds *)

Lemma str_items_raises (value : pyvalue) (e : exn) :
  str_items value = Raises e ->
  (e = TypeError
   /\ match value with
      | VNone | VInt _ | VBool _ | VFloat _ | VDatetime _ | VUUID _ => True
      | _ => False
      end)
  \/ (e = UnicodeEncodeError
      /\ exists u : list Z,
           value = VUnicode u /\ Exists (fun c => ~ 0 <= c < 128) u).
Proof.
  destruct value as [| z | b | f | s | u | d | i | l | l | l]; cbn [str_items];
    try discriminate; try (intros [= <-]; left; split; [reflexivity | exact I]).
  destruct (forallb _ u) eqn:Hu; [discriminate |].
  intros [= <-]. right. split; [reflexivity |]. exists u. split; [reflexivity |].
  induction u as [| c u IH]; [discriminate Hu |].
  cbn [forallb] in Hu. apply andb_false_iff in Hu as [Hc | Hu].
  - apply Exists_cons_hd. apply andb_false_iff in Hc as [Hc | Hc].
    + apply Z.leb_gt in Hc. lia.
    + apply Z.ltb_ge in Hc. lia.
  - apply Exists_cons_tl. exact (IH Hu).
Qed.

(** X8: [execute_insert] fails only on the set column, and only when the
    value cannot be turned into a set literal.  It raises an exception
    exactly when the column is [set_type] and [[str(x) for x in value]]
    raises it; that is [TypeError] for a value that cannot be iterated over
    ([None], a number, a boolean, a timestamp, a UUID) and
    [UnicodeEncodeError] for a unicode string with a character outside
    ASCII.  Whenever it returns, the request is at [ALL], binds [key] to the
    primary key, and binds [val] to the value in every column except
    [set_type], where [val] is not bound. *)
Theorem execute_insert_raises_only_on_the_set_column
    (table_name column_name : string) (value primary_key : pyvalue) :
  (forall e : exn,
     execute_insert table_name column_name value primary_key = Raises e
     <-> column_name = "set_type" /\ str_items value = Raises e)
  /\ (forall e : exn,
        execute_insert table_name column_name value primary_key = Raises e ->
        (e = TypeError
         /\ match value with
            | VNone | VInt _ | VBool _ | VFloat _ | VDatetime _ | VUUID _ => True
            | _ => False
            end)
        \/ (e = UnicodeEncodeError
            /\ exists u : list Z,
                 value = VUnicode u /\ Exists (fun c => ~ 0 <= c < 128) u))
  /\ (forall req : request,
        execute_insert table_name column_name value primary_key = Returns req ->
        consistency req = ALL
        /\ params req !! "key" = Some primary_key
        /\ params req !! "val"
           = (if String.eqb column_name "set_type" then None else Some value)
        /\ forall k : string, k ≠ "key" -> k ≠ "val" -> params req !! k = None).
Proof.
  assert (Hiff : forall e : exn,
     execute_insert table_name column_name value primary_key = Raises e
     <-> column_name = "set_type" /\ str_items value = Raises e).
  { intros e. unfold execute_insert.
    destruct (String.eqb column_name "counter_type") eqn:Hc.
    - apply String.eqb_eq in Hc. subst column_name.
      split; [discriminate | intros [H _]; discriminate H].
    - destruct (String.eqb column_name "set_type") eqn:Hs.
      + apply String.eqb_eq in Hs. subst column_name.
        destruct (str_items value) as [items | x]; cbn [bind].
        * split; [discriminate | intros [_ H]; discriminate H].
        * split; [intros [= <-]; now split | intros [_ [= <-]]; reflexivity].
      + apply String.eqb_neq in Hs.
        split; [discriminate | intros [H _]; now destruct (Hs H)]. }
  split; [exact Hiff |]. split.
  - intros e He. apply Hiff in He as [_ He]. exact (str_items_raises value e He).
  - intros req. unfold execute_insert.
    destruct (String.eqb column_name "counter_type") eqn:Hc.
    + apply String.eqb_eq in Hc. subst column_name. intros [= <-].
      cbn [consistency params String.eqb Ascii.eqb Bool.eqb].
      repeat split.
      * intros k Hk Hv. rewrite lookup_insert_ne by congruence.
        rewrite lookup_insert_ne by congruence. apply lookup_empty.
    + destruct (String.eqb column_name "set_type") eqn:Hs.
      * destruct (str_items value) as [items | x]; cbn [bind]; [| discriminate].
        intros [= <-]. cbn [consistency params]. repeat split.
        intros k Hk Hv. rewrite lookup_delete_ne by congruence.
        rewrite lookup_insert_ne by congruence.
        rewrite lookup_insert_ne by congruence. apply lookup_empty.
      * intros [= <-]. cbn [consistency params]. repeat split.
        intros k Hk Hv. rewrite lookup_insert_ne by congruence.
        rewrite lookup_insert_ne by congruence. apply lookup_empty.
Qed.

(** ** The set literal can be read back *)

Lemma str_of_Z_inj (a b : Z) : str_of_Z a = str_of_Z b -> a = b.
Proof.
  unfold str_of_Z. intros H.
  assert (Hn : forall z : Z,
             Z.to_int z ≠ Decimal.Pos Decimal.Nil
             /\ Z.to_int z ≠ Decimal.Neg Decimal.Nil).
  { intros [| p | p]; cbn [Z.to_int]; split; try discriminate;
      intros [= Hp]; exact (Unsigned.to_uint_nonnil p Hp). }
  apply DecimalZ.to_int_inj.
  assert (Some (Z.to_int a) = Some (Z.to_int b)) as [= ->]; [| reflexivity].
  rewrite <- (NilZero.isi (Z.to_int a)) by apply Hn.
  rewrite <- (NilZero.isi (Z.to_int b)) by apply Hn.
  now rewrite H.
Qed.

Lemma unquoted_no_comma (s : string) : unquoted s -> count_char "," s = O.
Proof.
  unfold unquoted. induction s as [| c s IH]; [reflexivity |].
  cbn [list_ascii_of_string count_char]. intros H.
  apply Forall_cons in H as [Hc Hs].
  destruct (Ascii.eqb c ",") eqn:E; [| exact (IH Hs)].
  apply Ascii.eqb_eq in E. subst c. discriminate Hc.
Qed.

Lemma str_of_Z_not_empty (z : Z) : str_of_Z z ≠ "".
Proof.
  unfold str_of_Z. destruct z as [| p | p]; cbn [Z.to_int]; try discriminate.
  unfold NilZero.string_of_int, NilZero.string_of_uint.
  destruct (Pos.to_uint p); discriminate.
Qed.

Lemma element_then_tail (x y tx ty : string) :
  count_char "," x = O -> count_char "," y = O ->
  starts_with_comma_or_empty tx -> starts_with_comma_or_empty ty ->
  x +:+ tx = y +:+ ty -> x = y /\ tx = ty.
Proof.
  revert y. induction x as [| c x IH]; intros [| d y] Hx Hy Htx Hty.
  - intros H. split; [reflexivity | exact H].
  - change ("" +:+ tx) with tx. change (String d y +:+ ty) with (String d (y +:+ ty)).
    intros ->. cbn [count_char] in Hy.
    destruct Htx as [Ht | [t' Ht]]; [discriminate Ht |].
    injection Ht as -> _. discriminate Hy.
  - change ("" +:+ ty) with ty. change (String c x +:+ tx) with (String c (x +:+ tx)).
    intros <-. cbn [count_char] in Hx.
    destruct Hty as [Ht | [t' Ht]]; [discriminate Ht |].
    injection Ht as -> _. discriminate Hx.
  - change (String c x +:+ tx) with (String c (x +:+ tx)).
    change (String d y +:+ ty) with (String d (y +:+ ty)).
    intros [= -> H]. cbn [count_char] in Hx, Hy.
    destruct (Ascii.eqb d ","); [discriminate Hx |].
    destruct (IH y Hx Hy Htx Hty H) as [-> ->]. now split.
Qed.

Lemma join_cons (sep x : string) (xs : list string) :
  join sep (x :: xs)
  = x +:+ match xs with [] => "" | _ => sep +:+ join sep xs end.
Proof.
  destruct xs as [| y ys]; cbn [join]; [| reflexivity].
  induction x as [| c x IH]; [reflexivity |].
  change (String c x +:+ "") with (String c (x +:+ "")). now rewrite <- IH.
Qed.

Lemma join_inj (xs ys : list string) :
  Forall (fun s => s ≠ "" /\ count_char "," s = O) xs ->
  Forall (fun s => s ≠ "" /\ count_char "," s = O) ys ->
  join ", " xs = join ", " ys -> xs = ys.
Proof.
  intros Hxs. revert ys.
  induction Hxs as [| x xs [Hx0 Hx] Hxs IH]; intros ys Hys.
  - destruct Hys as [| y ys [Hy0 _] _]; [reflexivity |].
    rewrite join_cons. cbn [join]. destruct y; [now destruct Hy0 | discriminate].
  - destruct Hys as [| y ys [Hy0 Hy] Hys].
    + rewrite join_cons. cbn [join]. destruct x; [now destruct Hx0 | discriminate].
    + rewrite !join_cons. intros H.
      apply element_then_tail in H as [-> Ht]; try assumption.
      * f_equal. destruct xs as [| x' xs'], ys as [| y' ys']; try discriminate Ht.
        -- reflexivity.
        -- apply IH; [exact Hys |]. now injection Ht.
      * destruct xs; [left; reflexivity | right; eexists; reflexivity].
      * destruct ys; [left; reflexivity | right; eexists; reflexivity].
Qed.

Lemma append_cancel_l (p a b : string) : p +:+ a = p +:+ b -> a = b.
Proof.
  induction p as [| c p IH]; [exact (fun H => H) |].
  change (String c (p +:+ a) = String c (p +:+ b) -> a = b).
  intros [= H]. exact (IH H).
Qed.

Lemma append_cancel_r (a b s : string) : a +:+ s = b +:+ s -> a = b.
Proof.
  intros H. pose proof (f_equal String.length H) as Hl.
  rewrite !length_append in Hl.
  assert (Hab : String.length a = String.length b) by lia. clear Hl.
  revert b H Hab. induction a as [| c a IH]; intros [| d b] H Hab;
    try discriminate Hab; [reflexivity |].
  change (String c (a +:+ s) = String d (b +:+ s)) in H.
  injection H as -> H. f_equal. apply IH; [exact H |].
  cbn [String.length] in Hab. lia.
Qed.

(** X9: the statement written for a set of integers tells the integers.
    Two inserts into the set column of one table whose statements are the
    same text carry the same integers in the same order: an integer is
    written with digits and a sign only, so the commas of the literal are
    the separators and nothing else.  Elements that are strings are written
    as they are, without quotes, and there the text does not tell them: the
    one string [a, b] and the two strings [a] and [b] give the same
    statement. *)
Theorem set_literal_determines_the_integers :
  (forall (table_name : string) (xs ys : list Z) (k k' : pyvalue)
          (req req' : request),
     execute_insert table_name "set_type" (VSet (map EInt xs)) k = Returns req ->
     execute_insert table_name "set_type" (VSet (map EInt ys)) k' = Returns req' ->
     query req = query req' ->
     xs = ys)
  /\ (forall (table_name : string) (k : pyvalue),
        execute_insert table_name "set_type" (VSet [EStr "a, b"]) k
        = execute_insert table_name "set_type" (VSet [EStr "a"; EStr "b"]) k).
Proof.
  split.
  - intros t xs ys k k' req req'.
    rewrite !execute_insert_set. intros [= <-] [= <-]. cbn [query].
    rewrite !map_map. cbn [str_of_elem]. intros H.
    apply append_cancel_l in H. apply append_cancel_l in H.
    apply append_cancel_l in H. apply append_cancel_r in H.
    apply join_inj in H.
    + revert ys H. induction xs as [| x xs IH]; intros [| y ys] H;
        try discriminate H; [reflexivity |].
      cbn [map] in H. injection H as Hx H.
      apply str_of_Z_inj in Hx. subst y. f_equal. exact (IH ys H).
    + clear H. induction xs as [| x xs IH]; constructor; [| exact IH].
      split; [apply str_of_Z_not_empty |].
      apply unquoted_no_comma, str_of_Z_unquoted.
    + clear H. induction ys as [| x ys IH]; constructor; [| exact IH].
      split; [apply str_of_Z_not_empty |].
      apply unquoted_no_comma, str_of_Z_unquoted.
  - intros t k. rewrite !execute_insert_set. reflexivity.
Qed.

(** ** The calls a test makes on the client *)

Section TraceFacts.
Context {St : Type}.
Variable client_execute : request -> St -> reply * St.
Variables client_resume client_pause : St -> St.

Lemma run_body_traced (f : test_method) (primary_key : pyvalue)
    (calls : list call) (st : St) :
  run_body (traced_execute client_execute) f primary_key (calls, st)
  = (fst (run_body client_execute f primary_key st),
     ((calls ++
       match execute_insert (tm_table f) (tm_column f) (tm_insert f)
                            primary_key with
       | Raises _ => []
       | Returns req =>
           match fst (client_execute req st) with
           | Success _ =>
               [ CallExecute req;
                 CallExecute (execute_select (tm_table f) (tm_column f)
                                primary_key) ]
           | _ => [CallExecute req]
           end
       end)%list,
      snd (run_body client_execute f primary_key st))).
Proof.
  unfold run_body, traced_execute.
  destruct (execute_insert _ _ _ _) as [req | e]; cbn [fst snd].
  2:{ now rewrite app_nil_r. }
  destruct (client_execute req st) as [[rows | e |] st1]; cbn [fst snd];
    try reflexivity.
  destruct (client_execute (execute_select _ _ _) st1) as [[result | e |] st2];
    cbn [fst snd]; rewrite <- app_assoc; reflexivity.
Qed.

End TraceFacts.

(** X10: the calls one test makes on the client.  A test that is not
    skipped resumes the client first and pauses it last, whatever happens in
    between; between the two it sends the insert, unless building the insert
    raised, and then the select under the same key, only when the insert
    succeeded: at most two requests, never a select without its insert.  A
    skipped test makes no call.  The record changes nothing of what the test
    does. *)
Theorem calls_of_a_test {St : Type}
    (client_execute : request -> St -> reply * St)
    (client_resume client_pause : St -> St)
    (f : test_method) (millis : Z) (st : St) :
  run_test (traced_execute client_execute) (traced_resume client_resume)
           (traced_pause client_pause) None f millis ([], st)
  = (fst (run_test client_execute client_resume client_pause None f millis st),
     ((CallResume ::
       match execute_insert (tm_table f) (tm_column f) (tm_insert f)
                            (VInt millis) with
       | Raises _ => []
       | Returns req =>
           match fst (client_execute req (client_resume st)) with
           | Success _ =>
               [ CallExecute req;
                 CallExecute (execute_select (tm_table f) (tm_column f)
                                (VInt millis)) ]
           | _ => [CallExecute req]
           end
       end ++ [CallPause])%list,
      snd (run_test client_execute client_resume client_pause None f millis st)))
  /\ forall reason : string,
       run_test (traced_execute client_execute) (traced_resume client_resume)
                (traced_pause client_pause) (Some reason) f millis ([], st)
       = (Skipped reason, ([], st)).
Proof.
  split; [| reflexivity].
  unfold run_test, traced_resume, traced_pause. cbn [fst snd app].
  rewrite run_body_traced.
  destruct (run_body client_execute f (VInt millis) (client_resume st)) as [o st'].
  reflexivity.
Qed.

(** ** The class after the loop *)

(** X11: the methods the class ends up with.  [setattr] replaces, so of two
    entries that give the same method name the later one wins, and a name no
    entry gives keeps the method the class had.  In the module's table the
    method names are pairwise distinct: every generated method is on the
    class under its name, [test_none] stays, and the class has the eighteen
    test methods of the seventeen supported types and [test_none]. *)
Theorem class_methods_after_the_loop :
  (forall (types : list (string * entry)) (cls : gmap string test_method)
          (name : string),
     (forall f : test_method, ~ In (name, f) (generated_tests types)) ->
     add_test_methods types cls !! name = cls !! name)
  /\ (forall (types : list (string * entry)) (cls : gmap string test_method)
             (l1 l2 : list (string * test_method)) (name : string)
             (f : test_method),
        generated_tests types = (l1 ++ (name, f) :: l2)%list ->
        (forall g : test_method, ~ In (name, g) l2) ->
        add_test_methods types cls !! name = Some f)
  /\ (forall (_now _exp : datetime) (_uuid1 : Z),
        let cls := add_test_methods (cql3_types _now _exp _uuid1)
                     {[ "test_none" := test_none ]} in
        (forall (name : string) (f : test_method),
           In (name, f) (generated_tests (cql3_types _now _exp _uuid1)) ->
           cls !! name = Some f)
        /\ cls !! "test_none" = Some test_none
        /\ size cls = 18%nat).
Proof.
  split; [| split].
  - intros types cls name Hn. exact (setattr_all_other _ cls name Hn).
  - intros types cls l1 l2 name f Hg Hn. unfold add_test_methods.
    rewrite Hg. exact (setattr_all_last l1 l2 cls name f Hn).
  - intros n e u cls. split; [| split].
    + intros name f Hin.
      exact (setattr_all_distinct _ _ name f (generated_names_distinct n e u) Hin).
    + exact (test_none_stays n e u).
    + vm_compute. reflexivity.
Qed.

(** ** Truncating twice *)

(** X12: truncating to milliseconds is done once and for all.  For a valid
    reading of the clock, [_now_expected] applied to its own result returns
    that result again; and it returns its argument unchanged exactly when
    the argument has no sub-millisecond part. *)
Theorem now_expected_is_idempotent (_now : datetime) :
  datetime_ok _now = true ->
  exists e : datetime,
    _now_expected _now = Returns e
    /\ datetime_ok e = true
    /\ _now_expected e = Returns e
    /\ (e = _now <-> microsecond _now mod 1000 = 0).
Proof.
  intros Hok. pose proof (datetime_ok_truncated _now Hok) as Hok'.
  eexists. split; [exact (now_expected_returns _now Hok) |].
  split; [exact Hok' |]. split.
  - rewrite (now_expected_returns _ Hok').
    cbn [year month day hour minute second microsecond].
    do 2 f_equal. rewrite Z.div_mul by lia. reflexivity.
  - destruct _now as [y mo d h mi s us].
    cbn [year month day hour minute second microsecond].
    pose proof (Z.div_mod us 1000 ltac:(lia)) as Hdm.
    split.
    + intros [= H]. lia.
    + intros H. f_equal. lia.
Qed.

Lemma now_expected_is_idempotent_witness :
  exists e : datetime,
    _now_expected (mk_datetime 2020 1 1 0 0 0 123456) = Returns e
    /\ _now_expected e = Returns e.
Proof.
  destruct (now_expected_is_idempotent (mk_datetime 2020 1 1 0 0 0 123456)
              eq_refl) as (e & He & _ & Hi & _).
  exists e. split; assumption.
Defined.

(** ** No test stops before the client *)

Lemma execute_insert_returns (table_name column_name : string)
    (value primary_key : pyvalue) :
  column_name ≠ "set_type" \/ (exists items, str_items value = Returns items) ->
  exists req : request,
    execute_insert table_name column_name value primary_key = Returns req.
Proof.
  intros H. unfold execute_insert.
  destruct (String.eqb column_name "counter_type"); [eexists; reflexivity |].
  destruct (String.eqb column_name "set_type") eqn:Hs; [| eexists; reflexivity].
  apply String.eqb_eq in Hs. destruct H as [H | [items ->]]; [now destruct H |].
  eexists. reflexivity.
Qed.

Lemma generated_tests_build (_now _exp : datetime) (_uuid1 : Z)
    (name : string) (f : test_method) :
  In (name, f) (generated_tests (cql3_types _now _exp _uuid1)) ->
  tm_column f ≠ "set_type"
  \/ (exists items, str_items (tm_insert f) = Returns items).
Proof.
  intros H. cbn in H.
  repeat (destruct H as [[= <- <-] | H];
          [first [left; discriminate | right; eexists; reflexivity] |]).
  destruct H.
Qed.

(** X13: no test of the module stops before it reaches the client.  For
    every method of the class, the generated ones and [test_none], and every
    primary key, [execute_insert] returns a request: the one value that goes
    into the set column is a set, which can be written as a literal.  So
    such a test never ends with an exception raised while the insert is
    built, whatever the client does. *)
Theorem every_test_reaches_the_client (_now _exp : datetime) (_uuid1 : Z)
    (name : string) (f : test_method) (primary_key : pyvalue) :
  In (name, f) (generated_tests (cql3_types _now _exp _uuid1))
  \/ (name, f) = ("test_none", test_none) ->
  (exists req : request,
     execute_insert (tm_table f) (tm_column f) (tm_insert f) primary_key
     = Returns req)
  /\ forall (St : Type) (client_execute : request -> St -> reply * St)
       (st : St) (x : exn),
       fst (run_body client_execute f primary_key st) ≠ Raised x.
Proof.
  intros H.
  assert (Hr : exists req : request,
             execute_insert (tm_table f) (tm_column f) (tm_insert f) primary_key
             = Returns req).
  { apply execute_insert_returns. destruct H as [H | [= _ ->]].
    - exact (generated_tests_build _now _exp _uuid1 name f H).
    - left. discriminate. }
  split; [exact Hr |]. destruct Hr as [req Hr].
  intros St ce st x. unfold run_body. rewrite Hr.
  destruct (ce req st) as [[rows | e |] st1]; cbn [fst]; try discriminate.
  destruct (ce (execute_select _ _ _) st1) as [[result | e |] st2]; cbn [fst];
    try discriminate.
  destruct (check_result f result); discriminate.
Qed.

Lemma every_test_reaches_the_client_witness :
  exists req : request,
    execute_insert "test" "ascii_type" VNone (VInt 42) = Returns req.
Proof.
  exact (proj1 (every_test_reaches_the_client
                  (mk_datetime 2020 1 1 0 0 0 123456)
                  (mk_datetime 2020 1 1 0 0 0 123000) 7
                  "test_none" test_none (VInt 42) (or_intror eq_refl))).
Defined.

(** ** setup.py: the packages handed to [setup] *)

Lemma node_induction (P : node -> Prop) :
  P File -> P Unlistable ->
  (forall entries : list (string * node),
     List.Forall (fun e => P (snd e)) entries -> P (Dir entries)) ->
  forall n : node, P n.
Proof.
  intros HF HU HD.
  fix IH 1. intros [| entries |]; [exact HF | | exact HU].
  apply HD. induction entries as [| [name child] rest IHr]; constructor.
  - exact (IH child).
  - exact IHr.
Qed.

(** A directory that holds [__init__.py] and that [walk] comes to. *)
Lemma visit_in (directory : string) (files packages : list string) (p : string) :
  In p (visit directory files packages)
  <-> In p packages
      \/ (existsb (String.eqb "__init__.py") files = true
          /\ p = replace_char "/" "." directory).
Proof.
  unfold visit. destruct (existsb _ files).
  - rewrite in_app_iff. cbn [In]. intuition congruence.
  - intuition discriminate.
Qed.

Lemma walk_visit_in (n : node) :
  forall (top : string) (acc : list string) (p : string),
    In p (walk visit top n acc)
    <-> In p acc
        \/ exists (d : string) (files : list string),
             visited top n d files
             /\ existsb (String.eqb "__init__.py") files = true
             /\ p = replace_char "/" "." d.
Proof.
  induction n as [| | entries IH] using node_induction; intros top acc p.
  - cbn [walk]. split; [now left |].
    intros [H | (d & files & Hv & _)]; [exact H | inversion Hv].
  - cbn [walk]. split; [now left |].
    intros [H | (d & files & Hv & _)]; [exact H | inversion Hv].
  - cbn [walk].
    set (each := fix each (es : list (string * node)) (acc : list string) :=
           match es with
           | [] => acc
           | (name, child) :: rest =>
               each rest (walk visit (path_join top name) child acc)
           end).
    assert (Heach : forall (es : list (string * node)) (acc0 : list string),
               List.Forall (fun e => forall top acc p,
                 In p (walk visit top (snd e) acc)
                 <-> In p acc
                     \/ exists d files,
                          visited top (snd e) d files
                          /\ existsb (String.eqb "__init__.py") files = true
                          /\ p = replace_char "/" "." d) es ->
               In p (each es acc0)
               <-> In p acc0
                   \/ exists name child d files,
                        In (name, child) es
                        /\ visited (path_join top name) child d files
                        /\ existsb (String.eqb "__init__.py") files = true
                        /\ p = replace_char "/" "." d).
    { induction es as [| [name child] rest IHr]; intros acc0 Hall.
      - cbn [each]. split; [now left |].
        intros [H | (? & ? & ? & ? & [] & _)]. exact H.
      - apply List.Forall_cons_iff in Hall as [Hc Hrest]. cbn [snd] in Hc.
        cbn [each]. rewrite (IHr _ Hrest), Hc. split.
        + intros [[H | (d & files & Hv & He & Hp)]
                 | (nm & ch & d & files & Hin & Hv & He & Hp)].
          * now left.
          * right. exists name, child, d, files. repeat split; try assumption.
            left. reflexivity.
          * right. exists nm, ch, d, files. repeat split; try assumption.
            right. exact Hin.
        + intros [H | (nm & ch & d & files & [[= <- <-] | Hin] & Hv & He & Hp)].
          * left. now left.
          * left. right. exists d, files. repeat split; assumption.
          * right. exists nm, ch, d, files. repeat split; assumption. }
    rewrite (Heach entries _ IH), visit_in. split.
    + intros [[H | [He Hp]] | (nm & ch & d & files & Hin & Hv & He & Hp)].
      * now left.
      * right. exists top, (map fst entries). repeat split; try assumption.
        constructor.
      * right. exists d, files. repeat split; try assumption.
        exact (visited_sub top entries nm ch d files Hin Hv).
    + intros [H | (d & files & Hv & He & Hp)]; [left; now left |].
      inversion Hv as [t es | t es nm ch d' fl Hin Hsub]; subst.
      * left. right. now split.
      * right. exists nm, ch, d, files. repeat split; assumption.
Qed.

Lemma replace_char_gone (old new : ascii) (s : string) :
  old ≠ new -> count_char old (replace_char old new s) = O.
Proof.
  intros Hne. induction s as [| c s IH]; [reflexivity |].
  cbn [replace_char count_char]. destruct (Ascii.eqb c old) eqn:E.
  - destruct (Ascii.eqb new old) eqn:E'; [| exact IH].
    apply Ascii.eqb_eq in E'. congruence.
  - rewrite E. exact IH.
Qed.

(** X14: what [getPackages] reports.  A name is in the result exactly when
    it is the path, with every [/] turned into a dot, of a directory that the
    walk from [base] comes to and that holds an entry named [__init__.py]:
    [base] itself or a directory below it, whether or not the directories
    above it hold one.  No reported name holds a [/].  When [base] is not a
    directory that can be listed, nothing is reported. *)
Theorem getPackages_reports_the_directories_with_init (base : string)
    (fs : node) :
  (forall p : string,
     In p (getPackages base fs)
     <-> exists (d : string) (files : list string),
           visited base fs d files
           /\ In "__init__.py" files
           /\ p = replace_char "/" "." d)
  /\ (forall p : string, In p (getPackages base fs) -> count_char "/" p = O)
  /\ (fs = File \/ fs = Unlistable -> getPackages base fs = []).
Proof.
  assert (Hin : forall files : list string,
             existsb (String.eqb "__init__.py") files = true
             <-> In "__init__.py" files).
  { intros files. rewrite existsb_exists. split.
    - intros (x & Hx & He). apply String.eqb_eq in He. now subst x.
    - intros H. exists "__init__.py". split; [exact H | reflexivity]. }
  assert (Hchar : forall p : string,
     In p (getPackages base fs)
     <-> exists (d : string) (files : list string),
           visited base fs d files
           /\ In "__init__.py" files
           /\ p = replace_char "/" "." d).
  { intros p. unfold getPackages. rewrite walk_visit_in. split.
    - intros [[] | (d & files & Hv & He & Hp)].
      exists d, files. rewrite <- Hin. repeat split; assumption.
    - intros (d & files & Hv & He & Hp). right.
      exists d, files. rewrite Hin. repeat split; assumption. }
  split; [exact Hchar |]. split.
  - intros p Hp. apply Hchar in Hp as (d & files & _ & _ & ->).
    apply replace_char_gone. discriminate.
  - intros [-> | ->]; reflexivity.
Qed.

(** ** The client of the spec over a store: insert, then select *)

Lemma wire_eqb_refl (w : wire) : wire_eqb w w = true.
Proof. destruct w as [| b]; [reflexivity | apply String.eqb_refl]. Qed.

Section Store.
Variable codecs : wire_type -> codec.

Lemma bind_key_and_val (T : wire_type) (k v : pyvalue) (kw vw : wire) :
  marshal codecs TTimestamp k = inr kw ->
  marshal codecs T v = inr vw ->
  bind_params codecs {[ "key" := TTimestamp; "val" := T ]}
    (<["val" := v]> (<["key" := k]> ∅))
  = inr (<["val" := vw]> (<["key" := kw]> ∅)).
Proof.
  intros Hk Hv. unfold bind_params.
  replace (map_to_list (<["val" := v]> (<["key" := k]> ∅)))
    with [("key", k); ("val", v)] by (vm_compute; reflexivity).
  cbn [bind_all]. unfold bind_one. cbn [fst snd].
  rewrite lookup_insert_eq, lookup_insert_ne by discriminate.
  rewrite lookup_singleton_eq, Hk, Hv. reflexivity.
Qed.

Lemma bind_key_alone (k : pyvalue) (kw : wire) :
  marshal codecs TTimestamp k = inr kw ->
  bind_params codecs {[ "key" := TTimestamp ]} (<["key" := k]> ∅)
  = inr (<["key" := kw]> ∅).
Proof.
  intros Hk. unfold bind_params.
  replace (map_to_list (<["key" := k]> (∅ : gmap string pyvalue)))
    with [("key", k)] by (vm_compute; reflexivity).
  cbn [bind_all]. unfold bind_one. cbn [fst snd].
  rewrite lookup_singleton_eq, Hk. reflexivity.
Qed.

(** The client of the spec on a connection to the store of one column. *)
Lemma insert_then_select (column : string) (T : wire_type)
    (k v v' : pyvalue) (kw vw : wire) (req : request)
    (c : connection (list (wire * wire))) :
  lifecycle_of _ c = Active ->
  column ≠ "set_type" ->
  execute_insert "test" column v k = Returns req ->
  marshal codecs TTimestamp k = inr kw ->
  marshal codecs T v = inr vw ->
  unmarshal codecs T vw = inr v' ->
  let client := fun req =>
    execute codecs (list (wire * wire)) (one_column_db column T)
            (column_metadata column T (query req)) req in
  let written := mk_frame (query req) (<["val" := vw]> (<["key" := kw]> ∅)) ALL in
  let read :=
    mk_frame ("SELECT " +:+ column +:+ " FROM test WHERE test_key=:key;")
             (<["key" := kw]> ∅) ALL in
  let c1 := mk_connection _ Active ((kw, vw) :: database _ c)
              (sent _ c ++ [written]) (waiting _ c) in
  let c2 := mk_connection _ Active ((kw, vw) :: database _ c)
              ((sent _ c ++ [written]) ++ [read]) (waiting _ c) in
  client req c = (Success [], c1)
  /\ client (execute_select "test" column k) c1
     = (Success [ {[ column := v' ]} ], c2).
Proof.
  intros Hl Hset Hreq Hk Hv Hv'. cbv zeta.
  assert (Hq : params req = <["val" := v]> (<["key" := k]> ∅)
               /\ consistency req = ALL
               /\ String.eqb (query req)
                    (query (execute_select "test" column VNone)) = false).
  { unfold execute_insert in Hreq.
    destruct (String.eqb column "counter_type").
    - injection Hreq as <-. repeat split.
    - apply String.eqb_neq in Hset. rewrite Hset in Hreq.
      injection Hreq as <-. repeat split. }
  destruct Hq as (Hps & Hcs & Hne). split.
  - unfold column_metadata. rewrite Hne.
    erewrite (execute_active codecs _ (one_column_db column T) _ req c
                _ [] [] ((kw, vw) :: database _ c) Hl);
      [ rewrite Hcs; reflexivity
      | rewrite Hps; exact (bind_key_and_val T k v kw vw Hk Hv)
      | | reflexivity ].
    unfold one_column_db. cbn [frame_args].
    rewrite lookup_insert_ne by discriminate.
    rewrite lookup_insert_eq, lookup_insert_eq. reflexivity.
  - unfold column_metadata.
    change (query (execute_select "test" column k))
      with (query (execute_select "test" column VNone)).
    rewrite String.eqb_refl.
    erewrite (execute_active codecs _ (one_column_db column T) _
                (execute_select "test" column k)
                (mk_connection _ Active ((kw, vw) :: database _ c)
                   (sent _ c ++ [mk_frame (query req)
                                   (<["val" := vw]> (<["key" := kw]> ∅)) ALL])
                   (waiting _ c))
                _
                [[(column, T, vw)]] [ {[ column := v' ]} ]
                ((kw, vw) :: database _ c) eq_refl);
      [ reflexivity
      | exact (bind_key_alone k kw Hk)
      | | ].
    + unfold one_column_db. cbn [frame_args database].
      rewrite lookup_insert_eq.
      rewrite lookup_insert_ne by discriminate. rewrite lookup_empty.
      cbn [List.find fst snd]. rewrite wire_eqb_refl. reflexivity.
    + cbn [decode_rows decode_row]. rewrite Hv'. reflexivity.
Qed.
End Store.

Lemma run_body_over_the_store (codecs : wire_type -> codec) (column : string)
    (T : wire_type) (k v v' expected : pyvalue) (kw vw : wire) (req : request)
    (c : connection (list (wire * wire))) :
  lifecycle_of _ c = Active ->
  column ≠ "set_type" ->
  execute_insert "test" column v k = Returns req ->
  marshal codecs TTimestamp k = inr kw ->
  marshal codecs T v = inr vw ->
  unmarshal codecs T vw = inr v' ->
  check_result (mk_test_method "test" column v expected) [ {[ column := v' ]} ]
    = true ->
  run_body
    (fun req =>
       execute codecs (list (wire * wire)) (one_column_db column T)
               (column_metadata column T (query req)) req)
    (mk_test_method "test" column v expected) k c
  = (Passed,
     mk_connection _ Active ((kw, vw) :: database _ c)
       ((sent _ c
         ++ [mk_frame (query req) (<["val" := vw]> (<["key" := kw]> ∅)) ALL])
        ++ [mk_frame ("SELECT " +:+ column +:+ " FROM test WHERE test_key=:key;")
              (<["key" := kw]> ∅) ALL])
       (waiting _ c)).
Proof.
  intros Hl Hset Hreq Hk Hv Hv' Hcheck.
  destruct (insert_then_select codecs column T k v v' kw vw req c
              Hl Hset Hreq Hk Hv Hv') as [Hi Hs].
  cbv zeta in Hi, Hs. unfold run_body. cbn [tm_table tm_column tm_insert].
  rewrite Hreq. cbv beta iota. rewrite Hi. cbv beta iota. rewrite Hs.
  cbv beta iota. now rewrite Hcheck.
Qed.

Lemma sample_int (z : Z) :
  - 2 ^ 31 <= z < 2 ^ 31 ->
  exists b : string,
    marshal sample_codecs TInt (VInt z) = inr (WBytes b)
    /\ unmarshal sample_codecs TInt (WBytes b) = inr (VInt z).
Proof.
  intros Hz.
  destruct (int_codec_round_trip 4 z ltac:(lia) Hz) as (b & He & _ & Hd).
  exists b. unfold marshal, unmarshal, encode, decode, registry.
  cbn [unsupported sample_codecs]. now rewrite He, Hd.
Qed.

Lemma sample_key (millis : Z) :
  - 2 ^ 63 <= millis < 2 ^ 63 ->
  exists kb : string,
    marshal sample_codecs TTimestamp (VInt millis) = inr (WBytes kb).
Proof.
  intros Hz.
  destruct (int_codec_round_trip 8 millis ltac:(lia) Hz) as (b & He & _).
  exists b. unfold marshal, encode, registry.
  cbn [unsupported sample_codecs]. now rewrite He.
Qed.



(** C7: the int round trip, and consistency ALL throughout.  The table's
    [int] entry inserts 5 and expects 5; with the key 42 the test's insert is
    [INSERT INTO test (test_key, int_type) values (:key, :val)] with
    [{key: 42, val: 5}] at ALL, its select is
    [SELECT int_type FROM test WHERE test_key=:key] with [{key: 42}] at ALL.
    On an active connection of the client of the spec, with the integer rule
    of its registry, to a store of the column [int_type], the insert
    succeeds and the select then yields the single row [{"int_type": 5}];
    the two frames go out at ALL, and the test passes.  The same holds for
    every 32-bit value and every 64-bit key.  And every request that
    [execute_insert] or [execute_select] builds is at ALL. *)
Theorem int_round_trip_at_ALL :
  let data := mk_entry "32-bit signed integer" (VInt 5) (VInt 5) None in
  let f := mk_test_method "test" "int_type" (VInt 5) (VInt 5) in
  let insert_request :=
    mk_request "INSERT INTO test (test_key, int_type) values (:key, :val);"
               (<["val" := VInt 5]> (<["key" := VInt 42]> ∅)) ALL in
  let select_request :=
    mk_request "SELECT int_type FROM test WHERE test_key=:key;"
               (<["key" := VInt 42]> ∅) ALL in
  let client := fun req =>
    execute sample_codecs (list (wire * wire)) (one_column_db "int_type" TInt)
            (column_metadata "int_type" TInt (query req)) req in
  (forall (_now _exp : datetime) (_uuid1 : Z),
     In ("int", data) (cql3_types _now _exp _uuid1)
     /\ In ("test_int", f) (generated_tests (cql3_types _now _exp _uuid1)))
  /\ execute_insert "test" "int_type" (VInt 5) (VInt 42) = Returns insert_request
  /\ execute_select "test" "int_type" (VInt 42) = select_request
  /\ (forall c : connection (list (wire * wire)),
        lifecycle_of _ c = Active ->
        exists c1 c2 : connection (list (wire * wire)),
          client insert_request c = (Success [], c1)
          /\ client select_request c1
             = (Success [ {[ "int_type" := VInt 5 ]} ], c2)
          /\ map frame_query (sent _ c2)
             = (map frame_query (sent _ c)
                ++ [ "INSERT INTO test (test_key, int_type) values (:key, :val);";
                     "SELECT int_type FROM test WHERE test_key=:key;" ])%list
          /\ map frame_consistency (sent _ c2)
             = (map frame_consistency (sent _ c) ++ [ALL; ALL])%list
          /\ run_body client f (VInt 42) c = (Passed, c2))
  /\ (forall (z millis : Z) (c : connection (list (wire * wire))),
        - 2 ^ 31 <= z < 2 ^ 31 ->
        - 2 ^ 63 <= millis < 2 ^ 63 ->
        lifecycle_of _ c = Active ->
        exists (req : request) (c1 c2 : connection (list (wire * wire))),
          execute_insert "test" "int_type" (VInt z) (VInt millis) = Returns req
          /\ client req c = (Success [], c1)
          /\ client (execute_select "test" "int_type" (VInt millis)) c1
             = (Success [ {[ "int_type" := VInt z ]} ], c2)
          /\ run_body client
               (mk_test_method "test" "int_type" (VInt z) (VInt z))
               (VInt millis) c = (Passed, c2))
  /\ (forall (table_name column_name : string) (value primary_key : pyvalue)
        (req : request),
        execute_insert table_name column_name value primary_key = Returns req ->
        consistency req = ALL)
  /\ (forall (table_name column_name : string) (primary_key : pyvalue),
        consistency (execute_select table_name column_name primary_key) = ALL).
Proof.
  cbv zeta.
  assert (Hgen : forall (z millis : Z) (c : connection (list (wire * wire))),
            - 2 ^ 31 <= z < 2 ^ 31 ->
            - 2 ^ 63 <= millis < 2 ^ 63 ->
            lifecycle_of _ c = Active ->
            exists (req : request) (c1 c2 : connection (list (wire * wire))),
              execute_insert "test" "int_type" (VInt z) (VInt millis) = Returns req
              /\ (execute sample_codecs _ (one_column_db "int_type" TInt)
                    (column_metadata "int_type" TInt (query req)) req c
                  = (Success [], c1))
              /\ (execute sample_codecs _ (one_column_db "int_type" TInt)
                    (column_metadata "int_type" TInt
                       (query (execute_select "test" "int_type" (VInt millis))))
                    (execute_select "test" "int_type" (VInt millis)) c1
                  = (Success [ {[ "int_type" := VInt z ]} ], c2))
              /\ run_body
                   (fun req =>
                      execute sample_codecs _ (one_column_db "int_type" TInt)
                        (column_metadata "int_type" TInt (query req)) req)
                   (mk_test_method "test" "int_type" (VInt z) (VInt z))
                   (VInt millis) c = (Passed, c2)
              /\ map frame_query (sent _ c2)
                 = (map frame_query (sent _ c)
                    ++ [ query req;
                         "SELECT int_type FROM test WHERE test_key=:key;" ])%list
              /\ map frame_consistency (sent _ c2)
                 = (map frame_consistency (sent _ c) ++ [ALL; ALL])%list).
  { intros z millis c Hz Hm Hl.
    destruct (sample_int z Hz) as (b & Hv & Hv').
    destruct (sample_key millis Hm) as (kb & Hk).
    pose proof (insert_then_select sample_codecs "int_type" TInt (VInt millis)
                  (VInt z) (VInt z) (WBytes kb) (WBytes b) _ c Hl
                  ltac:(discriminate) eq_refl Hk Hv Hv') as [Hi Hs].
    cbv zeta in Hi, Hs.
    eexists _, _, _. split; [reflexivity |]. split; [exact Hi |].
    split; [exact Hs |]. split.
    - apply (run_body_over_the_store sample_codecs "int_type" TInt
               (VInt millis) (VInt z) (VInt z) (VInt z) (WBytes kb) (WBytes b)
               _ c Hl ltac:(discriminate) eq_refl Hk Hv Hv').
      apply check_result_iff. exists (VInt z). split; [reflexivity |].
      cbn [tm_expected py_eqb]. apply Z.eqb_refl.
    - cbn [sent]. rewrite !map_app, <- !app_assoc. split; reflexivity. }
  repeat apply conj; try reflexivity.
  - intros n e u. split; cbn.
    + do 9 right. left. reflexivity.
    + do 7 right. left. reflexivity.
  - intros c Hl.
    destruct (Hgen 5 42 c ltac:(lia) ltac:(lia) Hl)
      as (req & c1 & c2 & [= <-] & Hi & Hs & Hr & Hq & Hc).
    exists c1, c2. repeat split; assumption.
  - intros z millis c Hz Hm Hl.
    destruct (Hgen z millis c Hz Hm Hl) as (req & c1 & c2 & H1 & H2 & H3 & H4 & _).
    now exists req, c1, c2.
  - intros t c v pk req. unfold execute_insert.
    destruct (String.eqb c "counter_type"); [now intros [= <-] |].
    destruct (String.eqb c "set_type"); [| now intros [= <-]].
    destruct (str_items v); cbn; [now intros [= <-] | discriminate].
Qed.

Lemma int_round_trip_at_ALL_witness :
  exists c2 : connection (list (wire * wire)),
    run_body
      (fun req =>
         execute sample_codecs (list (wire * wire))
                 (one_column_db "int_type" TInt)
                 (column_metadata "int_type" TInt (query req)) req)
      (mk_test_method "test" "int_type" (VInt 7) (VInt 7)) (VInt 42)
      (mk_connection (list (wire * wire)) Active [] [] []) = (Passed, c2).
Proof.
  pose proof int_round_trip_at_ALL as H. cbv zeta in H.
  destruct H as (_ & _ & _ & _ & Hgen & _).
  destruct (Hgen 7 42 (mk_connection (list (wire * wire)) Active [] [] [])
              ltac:(lia) ltac:(lia) eq_refl) as (req & c1 & c2 & _ & _ & _ & Hr).
  exists c2. exact Hr.
Defined.
